(** * Delete-participant use case: [DeleteUserHandler.Handle]

    A shallow embedding of
    [Application/UseCases/User/Handlers/DeleteUserHandler.cs] and of the
    command record it consumes.  The handler is a linear pipeline of nine
    numbered steps over two repository interfaces; the embedding keeps the
    numbering, the constructor names and the message literals of the
    source.

    Effects.  The handler awaits four repository methods and mutates the
    [Room] object that the room repository hands out.  Both are modelled
    explicitly: a [World] holds the heap of [Room] objects (so that every
    holder of the same reference observes the in-place removal) and the
    trace of repository calls, in the order they were issued. *)

From Stdlib Require Import String NArith ZArith List Lia.
From stdpp Require Import base option list gmap.
Import ListNotations.

(** ** Domain values *)

Module Domain.

(** [ValidationFailure(propertyName, errorMessage)] of FluentValidation. *)
Record ValidationFailure := {
  PropertyName : string;
  ErrorMessage : string
}.

(** The handler builds three subclasses of [ValidationResult]; a
    repository may answer with any subclass, or with the base class. *)
Inductive ErrorKind :=
| NotFound
| Forbidden
| BadRequest
| BaseValidationResult.

Record ValidationResult := {
  Kind : ErrorKind;
  Errors : list ValidationFailure
}.

Definition NotFoundError (errors : list ValidationFailure) : ValidationResult :=
  {| Kind := NotFound; Errors := errors |}.

Definition ForbiddenError (errors : list ValidationFailure) : ValidationResult :=
  {| Kind := Forbidden; Errors := errors |}.

Definition BadRequestError (errors : list ValidationFailure) : ValidationResult :=
  {| Kind := BadRequest; Errors := errors |}.

(** [Result<T, E>] of CSharpFunctionalExtensions. *)
Inductive Result (T E : Type) :=
| Success (value : T)
| Failure (error : E).
Arguments Success {T E} value.
Arguments Failure {T E} error.

(** The members of [User] that the handler reads.  Identifiers are
    [ulong]; only equality is ever taken on them. *)
Record User := {
  Id : N;
  AuthCode : string;
  IsAdmin : bool;
  RoomId : N
}.

#[global] Instance User_eq_dec : EqDecision User.
Proof. solve_decision. Defined.

(** The members of the [Room] aggregate that the handler reads.
    [ClosedOn] is a nullable timestamp, here in ticks; [Users] is the
    participant collection, which the handler scans with
    [FirstOrDefault] and edits in place with [Remove]. *)
Record Room := {
  ClosedOn : option Z;
  Users : list User
}.

(** Modelled from the spec: the class of [Room] is not among the
    sources; the data model makes its participant collection a
    membership set, unique by id. *)
Definition UsersUniqueById (room : Room) : Prop :=
  NoDup (map Id (Users room)).

(** Modelled from the spec: the class of [User] is not among the
    sources; in the data model a participant has one identity, its id,
    and belongs to exactly one room.  So two records of the same
    participant carry the same room id. *)
Definition SameParticipantSameRoom (a b : User) : Prop :=
  Id a = Id b -> RoomId a = RoomId b.

Definition WithUsers (room : Room) (users : list User) : Room :=
  {| ClosedOn := ClosedOn room; Users := users |}.

(** [DeleteUserCommand(string UserCode, ulong UserId)]. *)
Record DeleteUserCommand := {
  UserCode : string;
  UserId : N
}.

(** [Enumerable.FirstOrDefault(predicate)]: the first match, or null. *)
Fixpoint FirstOrDefault {A} (p : A -> bool) (l : list A) : option A :=
  match l with
  | [] => None
  | x :: rest => if p x then Some x else FirstOrDefault p rest
  end.

(** [ICollection<User>.Remove(item)]: drops the first element equal to
    [item] and leaves the collection alone when there is none. *)
Fixpoint Remove (item : User) (l : list User) : list User :=
  match l with
  | [] => []
  | x :: rest => if decide (x = item) then rest else x :: Remove item rest
  end.

Definition HasId (id : N) (u : User) : bool := N.eqb (Id u) id.

End Domain.
Export Domain.

(** ** The world the handler runs in *)

Module Runtime.

(** A reference to a [Room] object. *)
Definition RoomRef := positive.

(** One entry per awaited repository method.  [CallUpdateAsync] keeps
    the state of the room object at the moment it was handed over. *)
Inductive Call :=
| CallGetByCodeAsync (userCode : string) (includeRoom includeWishes : bool)
| CallGetByIdAsync (id : N) (includeRoom includeWishes : bool)
| CallGetByUserCodeAsync (userCode : string)
| CallUpdateAsync (room : RoomRef) (state : Room).

Record World := {
  heap : gmap RoomRef Room;
  log : list Call
}.

Definition record_call (c : Call) (w : World) : World :=
  {| heap := heap w; log := log w ++ [c] |}.

Definition store (r : RoomRef) (room : Room) (w : World) : World :=
  {| heap := <[r := room]> (heap w); log := log w |}.

(** A method either returns or throws (dereferencing a reference with
    no object behind it is the only throw the handler itself can
    cause). *)
Inductive Outcome (A : Type) :=
| Returned (a : A)
| NullReferenceException.
Arguments Returned {A} a.
Arguments NullReferenceException {A}.

Definition Task (A : Type) : Type := World -> Outcome A * World.

Definition ret {A} (a : A) : Task A := fun w => (Returned a, w).

Definition bind {A B} (m : Task A) (k : A -> Task B) : Task B :=
  fun w =>
    match m w with
    | (Returned a, w') => k a w'
    | (NullReferenceException, w') => (NullReferenceException, w')
    end.

(** Awaiting a repository method: the answer comes back and the call is
    on record. *)
Definition await {A} (c : Call) (answer : A) : Task A :=
  fun w => (Returned answer, record_call c w).

(** Reading through a reference. *)
Definition deref (r : RoomRef) : Task Room :=
  fun w =>
    match heap w !! r with
    | Some room => (Returned room, w)
    | None => (NullReferenceException, w)
    end.

(** [room.Users.Remove(item)] on the object behind [r]. *)
Definition Users_Remove (r : RoomRef) (item : User) : Task unit :=
  fun w =>
    match heap w !! r with
    | Some room => (Returned tt, store r (WithUsers room (Remove item (Users room))) w)
    | None => (NullReferenceException, w)
    end.

Fixpoint count_UpdateAsync (l : list Call) : nat :=
  match l with
  | [] => 0
  | CallUpdateAsync _ _ :: rest => S (count_UpdateAsync rest)
  | _ :: rest => count_UpdateAsync rest
  end.

End Runtime.
Export Runtime.

Notation "x <- m ;; k" := (bind m (fun x => k))
  (at level 100, m at next level, right associativity).
Notation "m ;;; k" := (bind m (fun _ => k))
  (at level 100, right associativity).

(** ** Repository interfaces

    [IUserReadOnlyRepository] and [IRoomRepository] are interfaces to the
    handler; each of their methods is awaited at most once per
    invocation, so an implementation is given by what each method answers
    for its arguments.  [UpdateAsync] sees the room object it is passed in
    its current state.  The cancellation token is handed through
    unchanged and has no model here. *)

Class IUserReadOnlyRepository := {
  GetByCodeAsync : string -> bool -> bool -> Result User ValidationResult;
  GetByIdAsync : N -> bool -> bool -> Result User ValidationResult
}.

Class IRoomRepository := {
  GetByUserCodeAsync : string -> Result RoomRef ValidationResult;
  UpdateAsync : RoomRef -> Room -> Result unit string
}.

(** ** Worlds along the pipeline

    The world once the first, the first two and all three lookups of an
    invocation are on record. *)

Definition after_admin_lookup (request : DeleteUserCommand) (w : World) : World :=
  record_call (CallGetByCodeAsync (UserCode request) true false) w.

Definition after_target_lookup (request : DeleteUserCommand) (w : World) : World :=
  record_call (CallGetByIdAsync (UserId request) false false) (after_admin_lookup request w).

Definition after_room_lookup (request : DeleteUserCommand) (w : World) : World :=
  record_call (CallGetByUserCodeAsync (UserCode request)) (after_target_lookup request w).

(** ** The handler *)

Section DeleteUserHandler.

Context {userRepository : IUserReadOnlyRepository}
        {roomRepository : IRoomRepository}.

Definition userRepository_GetByCodeAsync (userCode : string) (includeRoom includeWishes : bool)
  : Task (Result User ValidationResult) :=
  await (CallGetByCodeAsync userCode includeRoom includeWishes)
        (GetByCodeAsync userCode includeRoom includeWishes).

Definition userRepository_GetByIdAsync (id : N) (includeRoom includeWishes : bool)
  : Task (Result User ValidationResult) :=
  await (CallGetByIdAsync id includeRoom includeWishes)
        (GetByIdAsync id includeRoom includeWishes).

Definition roomRepository_GetByUserCodeAsync (userCode : string)
  : Task (Result RoomRef ValidationResult) :=
  await (CallGetByUserCodeAsync userCode) (GetByUserCodeAsync userCode).

Definition roomRepository_UpdateAsync (r : RoomRef) : Task (Result unit string) :=
  room <- deref r ;;
  await (CallUpdateAsync r room) (UpdateAsync r room).

Definition Handle (request : DeleteUserCommand) : Task (Result unit ValidationResult) :=
  (* 1. Get admin user by userCode *)
  adminUserResult <- userRepository_GetByCodeAsync (UserCode request) true false ;;
  match adminUserResult with
  | Failure _ =>
      ret (Failure (NotFoundError [
        {| PropertyName := "userCode"; ErrorMessage := "User with such code not found" |}
      ]))
  | Success adminUser =>
  (* 2. Check if user is admin *)
  if negb (IsAdmin adminUser) then
      ret (Failure (ForbiddenError [
        {| PropertyName := "userCode"; ErrorMessage := "Only admin can delete users from the room" |}
      ]))
  else
  (* 3. Get user to delete by id *)
  userToDeleteResult <- userRepository_GetByIdAsync (UserId request) false false ;;
  match userToDeleteResult with
  | Failure _ =>
      ret (Failure (NotFoundError [
        {| PropertyName := "id"; ErrorMessage := "User with such id not found" |}
      ]))
  | Success userToDelete =>
  (* 4. Check if both users belong to the same room *)
  if negb (N.eqb (RoomId adminUser) (RoomId userToDelete)) then
      ret (Failure (ForbiddenError [
        {| PropertyName := "id";
           ErrorMessage := "User with userCode and user with id belong to different rooms" |}
      ]))
  else
  (* 5. Check if admin is not trying to delete himself *)
  if N.eqb (Id adminUser) (Id userToDelete) then
      ret (Failure (BadRequestError [
        {| PropertyName := "id"; ErrorMessage := "Admin cannot delete himself" |}
      ]))
  else
  (* 6. Get room to check if it's closed *)
  roomResult <- roomRepository_GetByUserCodeAsync (UserCode request) ;;
  match roomResult with
  | Failure error => ret (Failure error)
  | Success r =>
  room <- deref r ;;
  (* 7. Check if room is not closed *)
  match ClosedOn room with
  | Some _ =>
      ret (Failure (BadRequestError [
        {| PropertyName := "room"; ErrorMessage := "Cannot delete user from a closed room" |}
      ]))
  | None =>
  (* 8. Remove user from room *)
  match FirstOrDefault (HasId (UserId request)) (Users room) with
  | Some userToRemove => Users_Remove r userToRemove
  | None => ret tt
  end ;;;
  (* 9. Update room in database *)
  updateResult <- roomRepository_UpdateAsync r ;;
  match updateResult with
  | Failure error =>
      ret (Failure (BadRequestError [
        {| PropertyName := ""; ErrorMessage := error |}
      ]))
  | Success _ => ret (Success tt)
  end
  end
  end
  end
  end.

(** What an invocation leaves behind: the value handed back to the
    caller, the world afterwards, and the repository calls the
    invocation added to the trace. *)
Definition result_of (request : DeleteUserCommand) (w : World)
  : Outcome (Result unit ValidationResult) :=
  fst (Handle request w).

Definition world_after (request : DeleteUserCommand) (w : World) : World :=
  snd (Handle request w).

Definition calls_of (request : DeleteUserCommand) (w : World) : list Call :=
  drop (length (log w)) (log (world_after request w)).

(** Steps 1 to 5 let the request through: the caller resolves and is
    the admin, the target resolves, both sit in the same room and they
    are two different users. *)
Definition StepsOneToFivePass (request : DeleteUserCommand) (admin target : User) : Prop :=
  GetByCodeAsync (UserCode request) true false = Success admin /\
  IsAdmin admin = true /\
  GetByIdAsync (UserId request) false false = Success target /\
  RoomId admin = RoomId target /\
  Id admin <> Id target.

(** The invocation did look the target up (step 3 was reached). *)
Definition TargetLookupMade (request : DeleteUserCommand) (w : World) : Prop :=
  In (CallGetByIdAsync (UserId request) false false) (calls_of request w).

(** How step 9 turns the answer of [UpdateAsync] into the handler's
    own result. *)
Definition persisted (updateResult : Result unit string) : Result unit ValidationResult :=
  match updateResult with
  | Failure error =>
      Failure (BadRequestError [{| PropertyName := ""; ErrorMessage := error |}])
  | Success _ => Success tt
  end.

(** The ways out of [Handle], each with the conditions under which the
    pipeline takes it. *)
Inductive Exit (request : DeleteUserCommand) (w : World) : Prop :=
| ExitAdminUnresolved (error : ValidationResult)
    (Hadmin : GetByCodeAsync (UserCode request) true false = Failure error)
| ExitNotAdmin (caller : User)
    (Hadmin : GetByCodeAsync (UserCode request) true false = Success caller)
    (Hflag : IsAdmin caller = false)
| ExitTargetUnresolved (admin : User) (error : ValidationResult)
    (Hadmin : GetByCodeAsync (UserCode request) true false = Success admin)
    (Hflag : IsAdmin admin = true)
    (Htarget : GetByIdAsync (UserId request) false false = Failure error)
| ExitDifferentRooms (admin target : User)
    (Hadmin : GetByCodeAsync (UserCode request) true false = Success admin)
    (Hflag : IsAdmin admin = true)
    (Htarget : GetByIdAsync (UserId request) false false = Success target)
    (Hrooms : RoomId admin <> RoomId target)
| ExitSelfDeletion (admin target : User)
    (Hadmin : GetByCodeAsync (UserCode request) true false = Success admin)
    (Hflag : IsAdmin admin = true)
    (Htarget : GetByIdAsync (UserId request) false false = Success target)
    (Hrooms : RoomId admin = RoomId target)
    (Hids : Id admin = Id target)
| ExitRoomUnresolved (admin target : User) (error : ValidationResult)
    (Hpass : StepsOneToFivePass request admin target)
    (Hroom : GetByUserCodeAsync (UserCode request) = Failure error)
| ExitRoomMissing (admin target : User) (r : RoomRef)
    (Hpass : StepsOneToFivePass request admin target)
    (Hroom : GetByUserCodeAsync (UserCode request) = Success r)
    (Hheap : heap w !! r = None)
| ExitRoomClosed (admin target : User) (r : RoomRef) (room : Room) (closedOn : Z)
    (Hpass : StepsOneToFivePass request admin target)
    (Hroom : GetByUserCodeAsync (UserCode request) = Success r)
    (Hheap : heap w !! r = Some room)
    (Hclosed : ClosedOn room = Some closedOn)
| ExitRemoved (admin target : User) (r : RoomRef) (room : Room) (found : User)
    (Hpass : StepsOneToFivePass request admin target)
    (Hroom : GetByUserCodeAsync (UserCode request) = Success r)
    (Hheap : heap w !! r = Some room)
    (Hopen : ClosedOn room = None)
    (Hfind : FirstOrDefault (HasId (UserId request)) (Users room) = Some found)
| ExitNothingToRemove (admin target : User) (r : RoomRef) (room : Room)
    (Hpass : StepsOneToFivePass request admin target)
    (Hroom : GetByUserCodeAsync (UserCode request) = Success r)
    (Hheap : heap w !! r = Some room)
    (Hopen : ClosedOn room = None)
    (Hfind : FirstOrDefault (HasId (UserId request)) (Users room) = None).

End DeleteUserHandler.

Ltac unfold_tasks :=
  unfold Handle, userRepository_GetByCodeAsync, userRepository_GetByIdAsync,
    roomRepository_GetByUserCodeAsync, roomRepository_UpdateAsync,
    bind, await, deref, Users_Remove, ret.

(** ** Test doubles

    The substitutes of [DeleteUserHandlerTests]: every method answers
    with the value it was set up to return. *)

Module Fixtures.

Definition UserRepositoryMock (byCode byId : Result User ValidationResult)
  : IUserReadOnlyRepository :=
  {| GetByCodeAsync := fun _ _ _ => byCode;
     GetByIdAsync := fun _ _ _ => byId |}.

Definition RoomRepositoryMock (byUserCode : Result RoomRef ValidationResult)
    (update : Result unit string) : IRoomRepository :=
  {| GetByUserCodeAsync := fun _ => byUserCode;
     UpdateAsync := fun _ _ => update |}.

Definition adminUser : User :=
  {| Id := 1; AuthCode := "admin-code"; IsAdmin := true; RoomId := 1 |}.

Definition nonAdminUser : User :=
  {| Id := 3; AuthCode := "user-code"; IsAdmin := false; RoomId := 1 |}.

Definition userToDelete : User :=
  {| Id := 2; AuthCode := "guest-code"; IsAdmin := false; RoomId := 1 |}.

Definition userElsewhere : User :=
  {| Id := 2; AuthCode := "guest-code"; IsAdmin := false; RoomId := 2 |}.

Definition openRoom : Room :=
  {| ClosedOn := None; Users := [adminUser; userToDelete] |}.

Definition closedRoom : Room :=
  {| ClosedOn := Some 638000000000000000%Z; Users := [adminUser; userToDelete] |}.

Definition roomWithoutTarget : Room :=
  {| ClosedOn := None; Users := [adminUser] |}.

Definition roomRef : RoomRef := 1%positive.

Definition worldWith (room : Room) : World :=
  {| heap := {[ roomRef := room ]}; log := [] |}.

Definition deleteCommand : DeleteUserCommand :=
  {| UserCode := "admin-code"; UserId := 2 |}.

Definition deleteSelfCommand : DeleteUserCommand :=
  {| UserCode := "admin-code"; UserId := 1 |}.

Definition roomNotFound : ValidationResult :=
  NotFoundError [{| PropertyName := "code"; ErrorMessage := "Room with such code not found" |}].

Definition infrastructureError : ValidationResult :=
  {| Kind := BaseValidationResult;
     Errors := [{| PropertyName := "db"; ErrorMessage := "connection lost" |}] |}.

(** User repositories, as the tests arrange them. *)
Definition usersOfTestRoom : IUserReadOnlyRepository :=
  UserRepositoryMock (Success adminUser) (Success userToDelete).

Definition usersCallerNotAdmin : IUserReadOnlyRepository :=
  UserRepositoryMock (Success nonAdminUser) (Success userToDelete).

Definition usersCallerUnknown : IUserReadOnlyRepository :=
  UserRepositoryMock (Failure infrastructureError) (Success userToDelete).

Definition usersTargetUnknown : IUserReadOnlyRepository :=
  UserRepositoryMock (Success adminUser) (Failure infrastructureError).

Definition usersTargetElsewhere : IUserReadOnlyRepository :=
  UserRepositoryMock (Success adminUser) (Success userElsewhere).

Definition usersTargetIsAdmin : IUserReadOnlyRepository :=
  UserRepositoryMock (Success adminUser) (Success adminUser).

(** Room repositories. *)
Definition roomsSaving : IRoomRepository :=
  RoomRepositoryMock (Success roomRef) (Success tt).

Definition roomsFailingToSave : IRoomRepository :=
  RoomRepositoryMock (Success roomRef) (Failure "Database update failed"%string).

Definition roomsUnavailable : IRoomRepository :=
  RoomRepositoryMock (Failure roomNotFound) (Success tt).

End Fixtures.


(** ** The participants list of the room page

    [ParticipantsList.tsx]: what the component derives from its props on
    a render, which cards it shows with which buttons, and how its click
    handlers move its two pieces of state and call [onDeleteParticipant].
    A handler reads the state of the render it was made in, and what it
    sets takes effect with the next render.  [run] follows the clicks of
    a user each of which is answered by a render before the next; [play]
    makes the renders explicit, so that several clicks may hit the
    handlers of one and the same render. *)

Module ParticipantsList.

(** The fields of a [Participant] that the component reads.  [userCode]
    and [email] may be undefined. *)
Record Participant := {
  id : Z;
  firstName : string;
  lastName : string;
  phone : string;
  deliveryInfo : string;
  email : option string;
  userCode : option string;
  isAdmin : bool
}.

Record PersonalInformation := {
  info_firstName : string;
  info_lastName : string;
  info_phone : string;
  info_deliveryInfo : string;
  info_email : option string;
  link : string
}.

Record ParticipantToDelete := {
  delete_id : Z;
  delete_firstName : string;
  delete_lastName : string
}.

(** The props, and the [userCode] of the route ([useParams]).
    [onDeleteParticipant] is optional; here: whether it was passed. *)
Record Props := {
  participants : list Participant;
  onDeleteParticipant : bool;
  route_userCode : option string
}.

(** [participants?.find((participant) => participant?.isAdmin)] *)
Definition admin (props : Props) : option Participant :=
  FirstOrDefault isAdmin (participants props).

(** [participants?.filter((participant) => !participant?.isAdmin)] *)
Definition restParticipants (props : Props) : list Participant :=
  List.filter (fun participant => negb (isAdmin participant)) (participants props).

Definition isParticipantsMoreThanTen (props : Props) : bool :=
  Nat.ltb 10 (length (participants props)).

(** [userCode === admin?.userCode]: strict equality of two values that
    are a string or undefined. *)
Definition admin_userCode (props : Props) : option string :=
  match admin props with
  | Some a => userCode a
  | None => None
  end.

Definition viewerIsAdmin (props : Props) : bool :=
  bool_decide (route_userCode props = admin_userCode props).

(** The component's state and the clicks it handles. *)
Record State := {
  selectedParticipant : option PersonalInformation;
  participantToDelete : option ParticipantToDelete
}.

Definition initialState : State :=
  {| selectedParticipant := None; participantToDelete := None |}.

Inductive Event :=
| InfoButtonClick (participant : Participant)
| ModalClose
| DeleteButtonClick (participant : Participant)
| DeleteConfirm
| DeleteCancel.

(** One [ParticipantCard] as rendered: whom it shows and which of the
    two optional click handlers it was given. *)
Record Card := {
  shown : Participant;
  isCurrentUser : bool;
  isCurrentUserAdmin : bool;
  onInfoButtonClick : option Event;
  onDeleteButtonClick : option Event
}.

Definition adminCard (props : Props) (a : Participant) : Card :=
  {| shown := a;
     isCurrentUser := bool_decide (route_userCode props = userCode a);
     isCurrentUserAdmin := bool_decide (route_userCode props = userCode a);
     onInfoButtonClick := None;
     onDeleteButtonClick := None |}.

Definition userCard (props : Props) (user : Participant) : Card :=
  {| shown := user;
     isCurrentUser := bool_decide (route_userCode props = userCode user);
     isCurrentUserAdmin := viewerIsAdmin props;
     onInfoButtonClick :=
       if viewerIsAdmin props && negb (bool_decide (route_userCode props = userCode user))
       then Some (InfoButtonClick user)
       else None;
     onDeleteButtonClick :=
       if viewerIsAdmin props && negb (bool_decide (route_userCode props = userCode user))
          && onDeleteParticipant props
       then Some (DeleteButtonClick user)
       else None |}.

Definition cards (props : Props) : list Card :=
  match admin props with
  | Some a => [adminCard props a]
  | None => []
  end ++ List.map (userCard props) (restParticipants props).

Section Handlers.

(** [generateParticipantLink] of [@utils/general], which is not among
    the sources: taken as given. *)
Variable generateParticipantLink : option string -> string.

Definition handleInfoButtonClick (participant : Participant) (s : State) : State :=
  {| selectedParticipant :=
       Some {| info_firstName := firstName participant;
               info_lastName := lastName participant;
               info_phone := phone participant;
               info_deliveryInfo := deliveryInfo participant;
               info_email := email participant;
               link := generateParticipantLink (userCode participant) |};
     participantToDelete := participantToDelete s |}.

Definition handleModalClose (s : State) : State :=
  {| selectedParticipant := None; participantToDelete := participantToDelete s |}.

Definition handleDeleteButtonClick (participant : Participant) (s : State) : State :=
  {| selectedParticipant := selectedParticipant s;
     participantToDelete :=
       Some {| delete_id := id participant;
               delete_firstName := firstName participant;
               delete_lastName := lastName participant |} |}.

(** The new state, and the ids [onDeleteParticipant] was called with. *)
Definition handleDeleteConfirm (props : Props) (s : State) : State * list Z :=
  ({| selectedParticipant := selectedParticipant s; participantToDelete := None |},
   match participantToDelete s with
   | Some pending => if onDeleteParticipant props then [delete_id pending] else []
   | None => []
   end).

Definition handleDeleteCancel (s : State) : State :=
  {| selectedParticipant := selectedParticipant s; participantToDelete := None |}.

Definition step (props : Props) (s : State) (e : Event) : State * list Z :=
  match e with
  | InfoButtonClick participant => (handleInfoButtonClick participant s, [])
  | ModalClose => (handleModalClose s, [])
  | DeleteButtonClick participant => (handleDeleteButtonClick participant s, [])
  | DeleteConfirm => handleDeleteConfirm props s
  | DeleteCancel => (handleDeleteCancel s, [])
  end.

(** A sequence of clicks with a render after every one of them: each
    click is handled on the state the previous one left.  The calls of
    [onDeleteParticipant] are collected in order. *)
Fixpoint run (props : Props) (s : State) (events : list Event) : State * list Z :=
  match events with
  | [] => (s, [])
  | e :: rest =>
      let '(s', called) := step props s e in
      let '(s'', called') := run props s' rest in
      (s'', called ++ called')
  end.

(** The component between renders: the state the handlers on the page
    were made with, and the state queued for the next render. *)
Record Machine := {
  rendered : State;
  queued : State
}.

Definition initialMachine : Machine :=
  {| rendered := initialState; queued := initialState |}.

Inductive Happening :=
| Click (e : Event)
| Rerender.

(** A click runs the handler of the current render: what the handler
    reads ([participantToDelete] in [handleDeleteConfirm]) is the
    rendered state; each setter it calls overwrites its own piece of the
    queued state and leaves the other piece as queued so far. *)
Definition dispatch (props : Props) (m : Machine) (e : Event) : Machine * list Z :=
  ({| rendered := rendered m; queued := fst (step props (queued m) e) |},
   snd (step props (rendered m) e)).

Definition rerender (m : Machine) : Machine :=
  {| rendered := queued m; queued := queued m |}.

Fixpoint play (props : Props) (m : Machine) (happenings : list Happening)
  : Machine * list Z :=
  match happenings with
  | [] => (m, [])
  | Click e :: rest =>
      let '(m', called) := dispatch props m e in
      let '(m'', called') := play props m' rest in
      (m'', called ++ called')
  | Rerender :: rest => play props (rerender m) rest
  end.

(** Clicks with a render after each. *)
Definition paced (events : list Event) : list Happening :=
  flat_map (fun e => [Click e; Rerender]) events.

End Handlers.

(** What can be clicked on a render: a card button only if the card was
    given its handler, the buttons of the confirmation only while a
    participant is pending, the close of the details only while they are
    open. *)
Definition clickable (props : Props) (s : State) (e : Event) : Prop :=
  match e with
  | InfoButtonClick _ => exists card, In card (cards props) /\ onInfoButtonClick card = Some e
  | DeleteButtonClick _ => exists card, In card (cards props) /\ onDeleteButtonClick card = Some e
  | ModalClose => selectedParticipant s <> None
  | DeleteConfirm | DeleteCancel => participantToDelete s <> None
  end.

Fixpoint clickable_in_turn (generateParticipantLink : option string -> string)
    (props : Props) (s : State) (events : list Event) : Prop :=
  match events with
  | [] => True
  | e :: rest =>
      clickable props s e /\
      clickable_in_turn generateParticipantLink props
        (fst (step generateParticipantLink props s e)) rest
  end.

(** Who may be put up for deletion: a listed participant, not flagged
    admin and not the viewer, by a viewer whose code is the admin's, with
    [onDeleteParticipant] passed. *)
Definition deletable (props : Props) (p : Participant) : Prop :=
  In p (participants props) /\
  isAdmin p = false /\
  onDeleteParticipant props = true /\
  route_userCode props = admin_userCode props /\
  route_userCode props <> userCode p.



End ParticipantsList.

(** ** Further scenarios: a room of three, and a page seen by its admin *)

Module Scenarios.

Import Fixtures.

Definition roomOfThree : Room :=
  {| ClosedOn := None; Users := [adminUser; userToDelete; nonAdminUser] |}.

Definition deleteThird : DeleteUserCommand :=
  {| UserCode := "admin-code"; UserId := 3 |}.

(** A user repository that answers by id, as a table would. *)
Definition usersById : IUserReadOnlyRepository :=
  {| GetByCodeAsync := fun _ _ _ => Success adminUser;
     GetByIdAsync := fun id _ _ =>
       if N.eqb id 2 then Success userToDelete
       else if N.eqb id 3 then Success nonAdminUser
       else Failure infrastructureError |}.

Definition host : ParticipantsList.Participant :=
  {| ParticipantsList.id := 1;
     ParticipantsList.firstName := "Ada";
     ParticipantsList.lastName := "Host";
     ParticipantsList.phone := "+380123456789";
     ParticipantsList.deliveryInfo := "Test address";
     ParticipantsList.email := Some "admin@test.com"%string;
     ParticipantsList.userCode := Some "admin-code"%string;
     ParticipantsList.isAdmin := true |}.

Definition guest : ParticipantsList.Participant :=
  {| ParticipantsList.id := 2;
     ParticipantsList.firstName := "Bo";
     ParticipantsList.lastName := "Guest";
     ParticipantsList.phone := "+380987654321";
     ParticipantsList.deliveryInfo := "Test address";
     ParticipantsList.email := None;
     ParticipantsList.userCode := Some "guest-code"%string;
     ParticipantsList.isAdmin := false |}.

Definition adminPage : ParticipantsList.Props :=
  {| ParticipantsList.participants := [guest; host];
     ParticipantsList.onDeleteParticipant := true;
     ParticipantsList.route_userCode := Some "admin-code"%string |}.

(** A page opened without a code in the route, before anybody is
    flagged admin. *)
Definition strayPage : ParticipantsList.Props :=
  {| ParticipantsList.participants := [guest];
     ParticipantsList.onDeleteParticipant := true;
     ParticipantsList.route_userCode := None |}.

Definition linkOf (code : option string) : string :=
  match code with
  | Some c => String.append "/room/" c
  | None => "/room/"
  end.

End Scenarios.

(** ** Collections: [FirstOrDefault] and [Remove] *)

Section Collections.

Lemma FirstOrDefault_Some {A} (p : A -> bool) (l : list A) (x : A) :
  FirstOrDefault p l = Some x -> In x l /\ p x = true.
Proof.
  induction l as [|y rest IH]; simpl; [discriminate|].
  destruct (p y) eqn:Hy.
  - intros [= ->]. auto.
  - intros H. destruct (IH H). auto.
Qed.

Lemma FirstOrDefault_None {A} (p : A -> bool) (l : list A) :
  FirstOrDefault p l = None <-> (forall x, In x l -> p x = false).
Proof.
  induction l as [|y rest IH]; simpl.
  - split; [intros _ x []|reflexivity].
  - destruct (p y) eqn:Hy; split.
    + discriminate.
    + intros H. specialize (H y (or_introl eq_refl)). congruence.
    + intros H x [<-|Hx]; [assumption|]. now apply IH.
    + intros H. apply IH. auto.
Qed.

Lemma HasId_true (id : N) (u : User) : HasId id u = true <-> Id u = id.
Proof. unfold HasId. apply N.eqb_eq. Qed.

Lemma HasId_false (id : N) (u : User) : HasId id u = false <-> Id u <> id.
Proof. unfold HasId. apply N.eqb_neq. Qed.

(** A user that is in the collection is found by id. *)
Lemma FirstOrDefault_present (id : N) (l : list User) :
  (exists u, In u l /\ Id u = id) ->
  exists found, FirstOrDefault (HasId id) l = Some found.
Proof.
  intros (u & Hin & Hid).
  destruct (FirstOrDefault (HasId id) l) as [found|] eqn:E; [eauto|].
  rewrite FirstOrDefault_None in E. apply E in Hin.
  apply HasId_false in Hin. contradiction.
Qed.

Lemma Remove_length (item : User) (l : list User) :
  In item l -> S (length (Remove item l)) = length l.
Proof.
  induction l as [|x rest IH]; simpl; [intros []|].
  intros H. destruct (decide (x = item)) as [->|Hne]; [reflexivity|].
  simpl. f_equal. apply IH. destruct H; [contradiction|assumption].
Qed.

(** Removing what [FirstOrDefault] found takes out the first user with
    that id: everything in front of it has another id, so the element
    [Remove] hits is the one that was found. *)
Lemma Remove_found_split (id : N) (l : list User) (found : User) :
  FirstOrDefault (HasId id) l = Some found ->
  exists front back,
    l = front ++ found :: back /\
    Remove found l = front ++ back /\
    (forall x, In x front -> Id x <> id).
Proof.
  induction l as [|y rest IH]; simpl; [discriminate|].
  destruct (HasId id y) eqn:Hy.
  - intros [= ->]. exists [], rest. simpl.
    destruct (decide (found = found)); [|contradiction].
    repeat split. intros x [].
  - intros H. destruct (IH H) as (front & back & -> & Hrm & Hfront).
    exists (y :: front), back. simpl.
    destruct (decide (y = found)) as [->|_].
    + apply FirstOrDefault_Some in H as [_ Hf]. congruence.
    + rewrite Hrm. repeat split.
      intros x [<-|Hx]; [now apply HasId_false|auto].
Qed.

(** In a collection that is unique by id, nobody with the id is left
    once the user found under it is removed. *)
Lemma Remove_found_unique (id : N) (l : list User) (found : User) :
  NoDup (map Id l) ->
  FirstOrDefault (HasId id) l = Some found ->
  forall x, In x (Remove found l) -> Id x <> id.
Proof.
  intros Hnd Hfind x Hx.
  pose proof (FirstOrDefault_Some _ _ _ Hfind) as [_ Hfid].
  apply HasId_true in Hfid.
  destruct (Remove_found_split _ _ _ Hfind) as (front & back & -> & Hrm & Hfront).
  rewrite Hrm in Hx. apply in_app_or in Hx as [Hx|Hx]; [auto|].
  apply NoDup_ListNoDup in Hnd.
  rewrite map_app in Hnd. simpl in Hnd.
  apply List.NoDup_remove_2 in Hnd.
  intros Heq. apply Hnd. apply in_or_app. right.
  rewrite Hfid, <- Heq. now apply in_map.
Qed.

End Collections.

(** ** Runs of the handler, exit by exit *)

Section Runs.

Context {userRepository : IUserReadOnlyRepository}
        {roomRepository : IRoomRepository}.

Implicit Types (request : DeleteUserCommand) (w : World) (r : RoomRef).

Lemma calls_of_run request w (cs : list Call) :
  log (world_after request w) = log w ++ cs -> calls_of request w = cs.
Proof.
  unfold calls_of. intros ->. apply drop_app_length.
Qed.

Lemma run_admin_unresolved request w error :
  GetByCodeAsync (UserCode request) true false = Failure error ->
  Handle request w =
    (Returned (Failure (NotFoundError [
       {| PropertyName := "userCode"; ErrorMessage := "User with such code not found" |}])),
     after_admin_lookup request w).
Proof.
  intros H. unfold_tasks. rewrite H. reflexivity.
Qed.

Lemma run_not_admin request w caller :
  GetByCodeAsync (UserCode request) true false = Success caller ->
  IsAdmin caller = false ->
  Handle request w =
    (Returned (Failure (ForbiddenError [
       {| PropertyName := "userCode";
          ErrorMessage := "Only admin can delete users from the room" |}])),
     after_admin_lookup request w).
Proof.
  intros H Hflag. unfold_tasks. rewrite H, Hflag. reflexivity.
Qed.

Lemma run_target_unresolved request w admin error :
  GetByCodeAsync (UserCode request) true false = Success admin ->
  IsAdmin admin = true ->
  GetByIdAsync (UserId request) false false = Failure error ->
  Handle request w =
    (Returned (Failure (NotFoundError [
       {| PropertyName := "id"; ErrorMessage := "User with such id not found" |}])),
     after_target_lookup request w).
Proof.
  intros H Hflag Ht. unfold_tasks. rewrite H, Hflag. simpl. rewrite Ht. reflexivity.
Qed.

Lemma run_different_rooms request w admin target :
  GetByCodeAsync (UserCode request) true false = Success admin ->
  IsAdmin admin = true ->
  GetByIdAsync (UserId request) false false = Success target ->
  RoomId admin <> RoomId target ->
  Handle request w =
    (Returned (Failure (ForbiddenError [
       {| PropertyName := "id";
          ErrorMessage := "User with userCode and user with id belong to different rooms" |}])),
     after_target_lookup request w).
Proof.
  intros H Hflag Ht Hroom. apply N.eqb_neq in Hroom.
  unfold_tasks. rewrite H, Hflag. simpl. rewrite Ht, Hroom. reflexivity.
Qed.

Lemma run_self_deletion request w admin target :
  GetByCodeAsync (UserCode request) true false = Success admin ->
  IsAdmin admin = true ->
  GetByIdAsync (UserId request) false false = Success target ->
  RoomId admin = RoomId target ->
  Id admin = Id target ->
  Handle request w =
    (Returned (Failure (BadRequestError [
       {| PropertyName := "id"; ErrorMessage := "Admin cannot delete himself" |}])),
     after_target_lookup request w).
Proof.
  intros H Hflag Ht Hroom Hid. apply N.eqb_eq in Hroom, Hid.
  unfold_tasks. rewrite H, Hflag. simpl. rewrite Ht, Hroom. simpl. rewrite Hid. reflexivity.
Qed.

(** Past step 5 the handler is down to the room. *)
Lemma run_room_unresolved request w admin target error :
  StepsOneToFivePass request admin target ->
  GetByUserCodeAsync (UserCode request) = Failure error ->
  Handle request w = (Returned (Failure error), after_room_lookup request w).
Proof.
  intros (H & Hflag & Ht & Hroom & Hid) Hr.
  apply N.eqb_eq in Hroom. apply N.eqb_neq in Hid.
  unfold_tasks. rewrite H, Hflag. simpl. rewrite Ht, Hroom. simpl. rewrite Hid, Hr.
  reflexivity.
Qed.

Lemma run_room_closed request w admin target r room closedOn :
  StepsOneToFivePass request admin target ->
  GetByUserCodeAsync (UserCode request) = Success r ->
  heap w !! r = Some room ->
  ClosedOn room = Some closedOn ->
  Handle request w =
    (Returned (Failure (BadRequestError [
       {| PropertyName := "room"; ErrorMessage := "Cannot delete user from a closed room" |}])),
     after_room_lookup request w).
Proof.
  intros (H & Hflag & Ht & Hroom & Hid) Hr Hheap Hclosed.
  apply N.eqb_eq in Hroom. apply N.eqb_neq in Hid.
  unfold_tasks. rewrite H, Hflag. simpl. rewrite Ht, Hroom. simpl. rewrite Hid, Hr.
  simpl. rewrite Hheap, Hclosed. reflexivity.
Qed.

Lemma run_room_missing request w admin target r :
  StepsOneToFivePass request admin target ->
  GetByUserCodeAsync (UserCode request) = Success r ->
  heap w !! r = None ->
  Handle request w = (NullReferenceException, after_room_lookup request w).
Proof.
  intros (H & Hflag & Ht & Hroom & Hid) Hr Hheap.
  apply N.eqb_eq in Hroom. apply N.eqb_neq in Hid.
  unfold_tasks. rewrite H, Hflag. simpl. rewrite Ht, Hroom. simpl. rewrite Hid, Hr.
  simpl. rewrite Hheap. reflexivity.
Qed.

(** Steps 8 and 9 when the target is in the collection: the object
    behind [r] loses it, and that state goes to [UpdateAsync]. *)
Lemma run_removed request w admin target r room found :
  StepsOneToFivePass request admin target ->
  GetByUserCodeAsync (UserCode request) = Success r ->
  heap w !! r = Some room ->
  ClosedOn room = None ->
  FirstOrDefault (HasId (UserId request)) (Users room) = Some found ->
  let room' := WithUsers room (Remove found (Users room)) in
  Handle request w =
    (Returned (persisted (UpdateAsync r room')),
     record_call (CallUpdateAsync r room') (store r room' (after_room_lookup request w))).
Proof.
  intros (H & Hflag & Ht & Hroom & Hid) Hr Hheap Hopen Hfind room'.
  apply N.eqb_eq in Hroom. apply N.eqb_neq in Hid.
  unfold_tasks. rewrite H, Hflag. simpl. rewrite Ht, Hroom. simpl. rewrite Hid, Hr.
  simpl. rewrite Hheap, Hopen, Hfind. simpl. rewrite Hheap. simpl.
  rewrite lookup_insert_eq. fold room'.
  destruct (UpdateAsync r room') as [[]|error]; reflexivity.
Qed.

(** Steps 8 and 9 when nobody in the collection has the id. *)
Lemma run_nothing_to_remove request w admin target r room :
  StepsOneToFivePass request admin target ->
  GetByUserCodeAsync (UserCode request) = Success r ->
  heap w !! r = Some room ->
  ClosedOn room = None ->
  FirstOrDefault (HasId (UserId request)) (Users room) = None ->
  Handle request w =
    (Returned (persisted (UpdateAsync r room)),
     record_call (CallUpdateAsync r room) (after_room_lookup request w)).
Proof.
  intros (H & Hflag & Ht & Hroom & Hid) Hr Hheap Hopen Hfind.
  apply N.eqb_eq in Hroom. apply N.eqb_neq in Hid.
  unfold_tasks. rewrite H, Hflag. simpl. rewrite Ht, Hroom. simpl. rewrite Hid, Hr.
  simpl. rewrite Hheap, Hopen, Hfind. simpl. rewrite Hheap.
  destruct (UpdateAsync r room) as [[]|error]; reflexivity.
Qed.

(** Every invocation leaves by one of the exits. *)
Lemma exit_cases request w : Exit request w.
Proof.
  destruct (GetByCodeAsync (UserCode request) true false) as [admin|error] eqn:Hadmin;
    [|eapply ExitAdminUnresolved; eassumption].
  destruct (IsAdmin admin) eqn:Hflag; [|eapply ExitNotAdmin; eassumption].
  destruct (GetByIdAsync (UserId request) false false) as [target|error] eqn:Htarget;
    [|eapply ExitTargetUnresolved; eassumption].
  destruct (N.eq_dec (RoomId admin) (RoomId target)) as [Hrooms|Hrooms];
    [|eapply ExitDifferentRooms; eassumption].
  destruct (N.eq_dec (Id admin) (Id target)) as [Hids|Hids];
    [eapply ExitSelfDeletion; eassumption|].
  assert (Hpass : StepsOneToFivePass request admin target) by (repeat split; assumption).
  destruct (GetByUserCodeAsync (UserCode request)) as [r|error] eqn:Hroom;
    [|eapply ExitRoomUnresolved; eassumption].
  destruct (heap w !! r) as [room|] eqn:Hheap; [|eapply ExitRoomMissing; eassumption].
  destruct (ClosedOn room) as [closedOn|] eqn:Hopen; [eapply ExitRoomClosed; eassumption|].
  destruct (FirstOrDefault (HasId (UserId request)) (Users room)) as [found|] eqn:Hfind.
  - eapply ExitRemoved; eassumption.
  - eapply ExitNothingToRemove; eassumption.
Qed.

(** The trace of each exit. *)
Lemma calls_after_admin_lookup request w :
  world_after request w = after_admin_lookup request w ->
  calls_of request w = [CallGetByCodeAsync (UserCode request) true false].
Proof.
  intros E. apply calls_of_run. rewrite E. reflexivity.
Qed.

Lemma calls_after_target_lookup request w :
  world_after request w = after_target_lookup request w ->
  calls_of request w =
    [CallGetByCodeAsync (UserCode request) true false;
     CallGetByIdAsync (UserId request) false false].
Proof.
  intros E. apply calls_of_run. rewrite E. simpl. now rewrite <- app_assoc.
Qed.

Lemma calls_after_room_lookup request w :
  world_after request w = after_room_lookup request w ->
  calls_of request w =
    [CallGetByCodeAsync (UserCode request) true false;
     CallGetByIdAsync (UserId request) false false;
     CallGetByUserCodeAsync (UserCode request)].
Proof.
  intros E. apply calls_of_run. rewrite E. simpl. now rewrite <- !app_assoc.
Qed.

Lemma calls_after_update request w r state (w' : World) :
  log w' = log (after_room_lookup request w) ->
  world_after request w = record_call (CallUpdateAsync r state) w' ->
  calls_of request w =
    [CallGetByCodeAsync (UserCode request) true false;
     CallGetByIdAsync (UserId request) false false;
     CallGetByUserCodeAsync (UserCode request);
     CallUpdateAsync r state].
Proof.
  intros Hlog E. apply calls_of_run. rewrite E. simpl. rewrite Hlog. simpl.
  now rewrite <- !app_assoc.
Qed.

End Runs.

(** ** What the trace of an invocation tells *)

Section Traces.

Context {userRepository : IUserReadOnlyRepository}
        {roomRepository : IRoomRepository}.

Implicit Types (request : DeleteUserCommand) (w : World) (r : RoomRef).

Lemma world_after_run request w o (w' : World) :
  Handle request w = (o, w') -> world_after request w = w'.
Proof. unfold world_after. now intros ->. Qed.

Lemma result_of_run request w o (w' : World) :
  Handle request w = (o, w') -> result_of request w = o.
Proof. unfold result_of. now intros ->. Qed.

(** The trace of every exit, read off the run equations. *)
Lemma calls_of_cases request w :
  calls_of request w = [CallGetByCodeAsync (UserCode request) true false] \/
  calls_of request w =
    [CallGetByCodeAsync (UserCode request) true false;
     CallGetByIdAsync (UserId request) false false] \/
  calls_of request w =
    [CallGetByCodeAsync (UserCode request) true false;
     CallGetByIdAsync (UserId request) false false;
     CallGetByUserCodeAsync (UserCode request)] \/
  exists r state,
    calls_of request w =
      [CallGetByCodeAsync (UserCode request) true false;
       CallGetByIdAsync (UserId request) false false;
       CallGetByUserCodeAsync (UserCode request);
       CallUpdateAsync r state] /\
    result_of request w = Returned (persisted (UpdateAsync r state)).
Proof.
  destruct (exit_cases request w).
  - left. eapply calls_after_admin_lookup, world_after_run, run_admin_unresolved; eauto.
  - left. eapply calls_after_admin_lookup, world_after_run, run_not_admin; eauto.
  - right; left.
    eapply calls_after_target_lookup, world_after_run, run_target_unresolved; eauto.
  - right; left.
    eapply calls_after_target_lookup, world_after_run, run_different_rooms; eauto.
  - right; left.
    eapply calls_after_target_lookup, world_after_run, run_self_deletion; eauto.
  - right; right; left.
    eapply calls_after_room_lookup, world_after_run, run_room_unresolved; eauto.
  - right; right; left.
    eapply calls_after_room_lookup, world_after_run, run_room_missing; eauto.
  - right; right; left.
    eapply calls_after_room_lookup, world_after_run, run_room_closed; eauto.
  - right; right; right.
    pose proof (run_removed _ w _ _ _ _ _ Hpass Hroom Hheap Hopen Hfind) as Hrun.
    simpl in Hrun. eexists _, _. split.
    + eapply calls_after_update; [|eapply world_after_run, Hrun]. reflexivity.
    + eapply result_of_run, Hrun.
  - right; right; right.
    pose proof (run_nothing_to_remove _ w _ _ _ _ Hpass Hroom Hheap Hopen Hfind) as Hrun.
    eexists _, _. split.
    + eapply calls_after_update; [|eapply world_after_run, Hrun]. reflexivity.
    + eapply result_of_run, Hrun.
Qed.

(** The target is looked up only once the caller has resolved and
    turned out to be the admin. *)
Lemma target_lookup_inv request w :
  TargetLookupMade request w ->
  exists admin,
    GetByCodeAsync (UserCode request) true false = Success admin /\
    IsAdmin admin = true.
Proof.
  unfold TargetLookupMade. intros Hmade.
  destruct (GetByCodeAsync (UserCode request) true false) as [admin|error] eqn:Hadmin.
  - destruct (IsAdmin admin) eqn:Hflag; [eauto|].
    rewrite (calls_after_admin_lookup request w) in Hmade
      by (eapply world_after_run, run_not_admin; eauto).
    destruct Hmade as [Hc|[]]. discriminate Hc.
  - rewrite (calls_after_admin_lookup request w) in Hmade
      by (eapply world_after_run, run_admin_unresolved; eauto).
    destruct Hmade as [Hc|[]]. discriminate Hc.
Qed.

Lemma target_lookup_needs_admin request w admin :
  GetByCodeAsync (UserCode request) true false = Success admin ->
  TargetLookupMade request w ->
  IsAdmin admin = true.
Proof.
  intros Hadmin Hmade.
  destruct (target_lookup_inv _ _ Hmade) as (admin' & Hadmin' & Hflag).
  congruence.
Qed.

(** An [UpdateAsync] on the trace is the last thing the invocation
    did, and its answer decides the result. *)
Lemma update_call_decides request w r state :
  In (CallUpdateAsync r state) (calls_of request w) ->
  result_of request w = Returned (persisted (UpdateAsync r state)).
Proof.
  intros Hin.
  destruct (calls_of_cases request w) as [E|[E|[E|(r0 & state0 & E & Hres)]]];
    rewrite E in Hin; simpl in Hin.
  - destruct Hin as [Hc|[]]; discriminate Hc.
  - destruct Hin as [Hc|[Hc|[]]]; discriminate Hc.
  - destruct Hin as [Hc|[Hc|[Hc|[]]]]; discriminate Hc.
  - destruct Hin as [Hc|[Hc|[Hc|[Hc|[]]]]]; try discriminate Hc.
    injection Hc as <- <-. exact Hres.
Qed.

End Traces.

(** ** The use case, claim by claim *)

Section UseCase.

Context {userRepository : IUserReadOnlyRepository}
        {roomRepository : IRoomRepository}.

Implicit Types (request : DeleteUserCommand) (w : World) (r : RoomRef).

(** C1.  An admin deletes another participant of their own, open room:
    the admin lookup answers with an admin-flagged user, the target
    lookup with a different user of the same room, the room loaded has
    no [ClosedOn], holds a user with the target id (its collection being
    unique by id, as the data model has it), and the update the
    invocation issues succeeds.  Then the handler returns success, the
    room object no longer holds any user with the target id (it lost
    exactly one member), and the trace of the invocation shows exactly
    one [UpdateAsync], issued last and on the room as mutated. *)
Theorem delete_open_room_removes_target request w admin target r room :
  GetByCodeAsync (UserCode request) true false = Success admin ->
  IsAdmin admin = true ->
  GetByIdAsync (UserId request) false false = Success target ->
  Id admin <> Id target ->
  RoomId admin = RoomId target ->
  GetByUserCodeAsync (UserCode request) = Success r ->
  heap w !! r = Some room ->
  ClosedOn room = None ->
  UsersUniqueById room ->
  (exists u, In u (Users room) /\ Id u = UserId request) ->
  (forall state,
      In (CallUpdateAsync r state) (calls_of request w) ->
      UpdateAsync r state = Success tt) ->
  result_of request w = Returned (Success tt) /\
  (exists room',
      heap (world_after request w) !! r = Some room' /\
      (forall u, In u (Users room') -> Id u <> UserId request) /\
      S (length (Users room')) = length (Users room) /\
      ClosedOn room' = None /\
      calls_of request w =
        [CallGetByCodeAsync (UserCode request) true false;
         CallGetByIdAsync (UserId request) false false;
         CallGetByUserCodeAsync (UserCode request);
         CallUpdateAsync r room']) /\
  count_UpdateAsync (calls_of request w) = 1.
Proof.
  intros Hadmin Hflag Htarget Hids Hrooms Hroom Hheap Hopen Hunique Hpresent Hupdate.
  assert (Hpass : StepsOneToFivePass request admin target) by (repeat split; assumption).
  destruct (FirstOrDefault_present _ _ Hpresent) as [found Hfind].
  pose proof (run_removed _ w _ _ _ _ _ Hpass Hroom Hheap Hopen Hfind) as Hrun.
  simpl in Hrun.
  set (room' := WithUsers room (Remove found (Users room))) in *.
  assert (Hcalls : calls_of request w =
            [CallGetByCodeAsync (UserCode request) true false;
             CallGetByIdAsync (UserId request) false false;
             CallGetByUserCodeAsync (UserCode request);
             CallUpdateAsync r room']).
  { eapply calls_after_update; [|eapply world_after_run, Hrun]. reflexivity. }
  assert (Hok : UpdateAsync r room' = Success tt).
  { apply Hupdate. rewrite Hcalls. simpl. auto. }
  split; [|split].
  - rewrite (result_of_run _ _ _ _ Hrun), Hok. reflexivity.
  - exists room'. repeat split.
    + rewrite (world_after_run _ _ _ _ Hrun). simpl. apply lookup_insert_eq.
    + intros u Hu. eapply Remove_found_unique; eauto.
    + simpl. apply Remove_length. eapply FirstOrDefault_Some, Hfind.
    + exact Hopen.
    + exact Hcalls.
  - rewrite Hcalls. reflexivity.
Qed.

(** C2.  Steps 1 to 5 pass and the room that loads carries a
    [ClosedOn]: the handler answers [BadRequest] on field "room" with
    "Cannot delete user from a closed room"; no object on the heap is
    touched, so the room keeps its [Users], and the trace ends with the
    room lookup: no [UpdateAsync]. *)
Theorem closed_room_is_rejected request w admin target r room closedOn :
  StepsOneToFivePass request admin target ->
  GetByUserCodeAsync (UserCode request) = Success r ->
  heap w !! r = Some room ->
  ClosedOn room = Some closedOn ->
  result_of request w =
    Returned (Failure (BadRequestError [
      {| PropertyName := "room"; ErrorMessage := "Cannot delete user from a closed room" |}])) /\
  heap (world_after request w) = heap w /\
  heap (world_after request w) !! r = Some room /\
  calls_of request w =
    [CallGetByCodeAsync (UserCode request) true false;
     CallGetByIdAsync (UserId request) false false;
     CallGetByUserCodeAsync (UserCode request)] /\
  count_UpdateAsync (calls_of request w) = 0.
Proof.
  intros Hpass Hroom Hheap Hclosed.
  pose proof (run_room_closed _ w _ _ _ _ _ Hpass Hroom Hheap Hclosed) as Hrun.
  pose proof (world_after_run _ _ _ _ Hrun) as Hw.
  pose proof (calls_after_room_lookup _ _ Hw) as Hcalls.
  repeat split.
  - exact (result_of_run _ _ _ _ Hrun).
  - now rewrite Hw.
  - now rewrite Hw.
  - exact Hcalls.
  - now rewrite Hcalls.
Qed.

(** C3.  The caller resolves but is not flagged admin: the handler
    answers [Forbidden] on field "userCode" with "Only admin can delete
    users from the room", whatever the target id and whatever the
    repositories would have said about it; the admin lookup is the only
    call on the trace, so there is no [GetByIdAsync], no room load and
    no update. *)
Theorem non_admin_is_forbidden request w caller :
  GetByCodeAsync (UserCode request) true false = Success caller ->
  IsAdmin caller = false ->
  result_of request w =
    Returned (Failure (ForbiddenError [
      {| PropertyName := "userCode";
         ErrorMessage := "Only admin can delete users from the room" |}])) /\
  calls_of request w = [CallGetByCodeAsync (UserCode request) true false] /\
  heap (world_after request w) = heap w.
Proof.
  intros Hadmin Hflag.
  pose proof (run_not_admin _ w _ Hadmin Hflag) as Hrun.
  pose proof (world_after_run _ _ _ _ Hrun) as Hw.
  repeat split.
  - exact (result_of_run _ _ _ _ Hrun).
  - exact (calls_after_admin_lookup _ _ Hw).
  - now rewrite Hw.
Qed.

(** C4.  The admin and the target both resolve and have the same id:
    the admin is deleting themself (the two records being of one
    participant, they carry one room id, as the data model has it).  The
    handler answers [BadRequest] on field "id" with "Admin cannot delete
    himself".  The room is never consulted, so its being open or closed
    plays no part: the trace holds the two user lookups only (no room
    lookup, no update), and the heap is as before. *)
Theorem self_deletion_is_rejected request w admin target :
  GetByCodeAsync (UserCode request) true false = Success admin ->
  TargetLookupMade request w ->
  GetByIdAsync (UserId request) false false = Success target ->
  SameParticipantSameRoom admin target ->
  Id admin = Id target ->
  result_of request w =
    Returned (Failure (BadRequestError [
      {| PropertyName := "id"; ErrorMessage := "Admin cannot delete himself" |}])) /\
  calls_of request w =
    [CallGetByCodeAsync (UserCode request) true false;
     CallGetByIdAsync (UserId request) false false] /\
  heap (world_after request w) = heap w.
Proof.
  intros Hadmin Hmade Htarget Hmodel Hids.
  pose proof (Hmodel Hids) as Hrooms.
  pose proof (target_lookup_needs_admin _ _ _ Hadmin Hmade) as Hflag.
  pose proof (run_self_deletion _ w _ _ Hadmin Hflag Htarget Hrooms Hids) as Hrun.
  pose proof (world_after_run _ _ _ _ Hrun) as Hw.
  repeat split.
  - exact (result_of_run _ _ _ _ Hrun).
  - exact (calls_after_target_lookup _ _ Hw).
  - now rewrite Hw.
Qed.

(** C5.  The admin and the target both resolve and their room ids
    differ: the handler answers [Forbidden] on field "id" with "User
    with userCode and user with id belong to different rooms"; the
    trace holds the two user lookups only (no room load, no update) and
    the heap is as before. *)
Theorem different_rooms_is_forbidden request w admin target :
  GetByCodeAsync (UserCode request) true false = Success admin ->
  TargetLookupMade request w ->
  GetByIdAsync (UserId request) false false = Success target ->
  RoomId admin <> RoomId target ->
  result_of request w =
    Returned (Failure (ForbiddenError [
      {| PropertyName := "id";
         ErrorMessage := "User with userCode and user with id belong to different rooms" |}])) /\
  calls_of request w =
    [CallGetByCodeAsync (UserCode request) true false;
     CallGetByIdAsync (UserId request) false false] /\
  heap (world_after request w) = heap w.
Proof.
  intros Hadmin Hmade Htarget Hrooms.
  pose proof (target_lookup_needs_admin _ _ _ Hadmin Hmade) as Hflag.
  pose proof (run_different_rooms _ w _ _ Hadmin Hflag Htarget Hrooms) as Hrun.
  pose proof (world_after_run _ _ _ _ Hrun) as Hw.
  repeat split.
  - exact (result_of_run _ _ _ _ Hrun).
  - exact (calls_after_target_lookup _ _ Hw).
  - now rewrite Hw.
Qed.

(** C6.  The lookup by [adminAuthCode] resolves nobody: the handler
    answers [NotFound] on field "userCode" with "User with such code
    not found", and that lookup is the only repository call made. *)
Theorem unresolved_admin_is_not_found request w error :
  GetByCodeAsync (UserCode request) true false = Failure error ->
  result_of request w =
    Returned (Failure (NotFoundError [
      {| PropertyName := "userCode"; ErrorMessage := "User with such code not found" |}])) /\
  calls_of request w = [CallGetByCodeAsync (UserCode request) true false] /\
  heap (world_after request w) = heap w.
Proof.
  intros Hadmin.
  pose proof (run_admin_unresolved _ w _ Hadmin) as Hrun.
  pose proof (world_after_run _ _ _ _ Hrun) as Hw.
  repeat split.
  - exact (result_of_run _ _ _ _ Hrun).
  - exact (calls_after_admin_lookup _ _ Hw).
  - now rewrite Hw.
Qed.

(** C7.  Steps 1 to 5 pass and the room load fails: the caller gets
    the very error of the room repository (kind, fields and messages),
    not one of the handler's own making; nothing is updated. *)
Theorem room_lookup_failure_passes_through request w admin target error :
  StepsOneToFivePass request admin target ->
  GetByUserCodeAsync (UserCode request) = Failure error ->
  result_of request w = Returned (Failure error) /\
  calls_of request w =
    [CallGetByCodeAsync (UserCode request) true false;
     CallGetByIdAsync (UserId request) false false;
     CallGetByUserCodeAsync (UserCode request)] /\
  heap (world_after request w) = heap w.
Proof.
  intros Hpass Hroom.
  pose proof (run_room_unresolved _ w _ _ _ Hpass Hroom) as Hrun.
  pose proof (world_after_run _ _ _ _ Hrun) as Hw.
  repeat split.
  - exact (result_of_run _ _ _ _ Hrun).
  - exact (calls_after_room_lookup _ _ Hw).
  - now rewrite Hw.
Qed.

(** C8.  The invocation reached the persistence step, that is, it
    issued [UpdateAsync] on some room in some state.  If that call
    failed, the handler answers [BadRequest] on the empty field name
    with the repository's message, letter for letter; if it succeeded,
    the handler answers success, which carries no payload. *)
Theorem update_answer_is_mapped request w r state :
  In (CallUpdateAsync r state) (calls_of request w) ->
  (forall message,
      UpdateAsync r state = Failure message ->
      result_of request w =
        Returned (Failure (BadRequestError [
          {| PropertyName := ""; ErrorMessage := message |}]))) /\
  (UpdateAsync r state = Success tt ->
   result_of request w = Returned (Success tt)).
Proof.
  intros Hreached. pose proof (update_call_decides _ _ _ _ Hreached) as Hres.
  split.
  - intros message Hfail. rewrite Hres, Hfail. reflexivity.
  - intros Hok. rewrite Hres, Hok. reflexivity.
Qed.

(** C9.  Steps 1 to 7 pass and nobody in the loaded room has the
    target id: step 8 does nothing and does not fail, the heap (and so
    the room) is as before, and the handler goes on to issue
    [UpdateAsync] on the untouched room and to answer with its result,
    mapped as step 9 maps it. *)
Theorem absent_target_is_silent_noop request w admin target r room :
  StepsOneToFivePass request admin target ->
  GetByUserCodeAsync (UserCode request) = Success r ->
  heap w !! r = Some room ->
  ClosedOn room = None ->
  (forall u, In u (Users room) -> Id u <> UserId request) ->
  (exists answer, result_of request w = Returned answer) /\
  heap (world_after request w) = heap w /\
  heap (world_after request w) !! r = Some room /\
  calls_of request w =
    [CallGetByCodeAsync (UserCode request) true false;
     CallGetByIdAsync (UserId request) false false;
     CallGetByUserCodeAsync (UserCode request);
     CallUpdateAsync r room] /\
  (forall message,
      UpdateAsync r room = Failure message ->
      result_of request w =
        Returned (Failure (BadRequestError [
          {| PropertyName := ""; ErrorMessage := message |}]))) /\
  (UpdateAsync r room = Success tt ->
   result_of request w = Returned (Success tt)).
Proof.
  intros Hpass Hroom Hheap Hopen Habsent.
  assert (Hfind : FirstOrDefault (HasId (UserId request)) (Users room) = None).
  { apply FirstOrDefault_None. intros u Hu. apply HasId_false. auto. }
  pose proof (run_nothing_to_remove _ w _ _ _ _ Hpass Hroom Hheap Hopen Hfind) as Hrun.
  pose proof (world_after_run _ _ _ _ Hrun) as Hw.
  pose proof (result_of_run _ _ _ _ Hrun) as Hres.
  split; [eauto|]. repeat split.
  - now rewrite Hw.
  - now rewrite Hw.
  - eapply calls_after_update; [|exact Hw]. reflexivity.
  - intros message Hfail. rewrite Hres, Hfail. reflexivity.
  - intros Hok. rewrite Hres, Hok. reflexivity.
Qed.

(** C10.  Whatever error the user repository attaches to a failed
    lookup (any kind, any fields, any messages), the caller never sees
    it.  A failed [GetByCodeAsync] always yields [NotFound] on
    "userCode" with "User with such code not found"; a failed
    [GetByIdAsync], whenever the invocation got to make that lookup,
    always yields [NotFound] on "id" with "User with such id not found".
    Neither result mentions the repository's error. *)
Theorem lookup_errors_are_discarded request w (error : ValidationResult) :
  (GetByCodeAsync (UserCode request) true false = Failure error ->
   result_of request w =
     Returned (Failure (NotFoundError [
       {| PropertyName := "userCode"; ErrorMessage := "User with such code not found" |}]))) /\
  (TargetLookupMade request w ->
   GetByIdAsync (UserId request) false false = Failure error ->
   result_of request w =
     Returned (Failure (NotFoundError [
       {| PropertyName := "id"; ErrorMessage := "User with such id not found" |}]))).
Proof.
  split.
  - intros Hadmin. eapply result_of_run, run_admin_unresolved, Hadmin.
  - intros Hmade Htarget.
    destruct (target_lookup_inv _ _ Hmade) as (admin & Hadmin & Hflag).
    eapply result_of_run, run_target_unresolved; eassumption.
Qed.

End UseCase.

(** ** The scenarios of the test suite, replayed *)

Import Fixtures.

Lemma steps_pass_in_test_room :
  @StepsOneToFivePass usersOfTestRoom deleteCommand adminUser userToDelete.
Proof. repeat split. discriminate. Defined.

Lemma test_room_unique : UsersUniqueById openRoom.
Proof.
  unfold UsersUniqueById. simpl. apply NoDup_ListNoDup.
  repeat constructor; simpl; intuition discriminate.
Defined.

Lemma delete_open_room_removes_target_witness :
  @result_of usersOfTestRoom roomsSaving deleteCommand (worldWith openRoom)
    = Returned (Success tt) /\
  (exists room',
      heap (@world_after usersOfTestRoom roomsSaving deleteCommand (worldWith openRoom))
        !! roomRef = Some room' /\
      (forall u, In u (Users room') -> Id u <> 2%N) /\
      S (length (Users room')) = 2) /\
  count_UpdateAsync (@calls_of usersOfTestRoom roomsSaving deleteCommand (worldWith openRoom)) = 1.
Proof.
  destruct (@delete_open_room_removes_target usersOfTestRoom roomsSaving
              deleteCommand (worldWith openRoom) adminUser userToDelete roomRef openRoom)
    as (Hres & (room' & Hheap & Hgone & Hlen & _) & Hcount).
  - reflexivity.
  - reflexivity.
  - reflexivity.
  - discriminate.
  - reflexivity.
  - reflexivity.
  - reflexivity.
  - reflexivity.
  - exact test_room_unique.
  - exists userToDelete. split; [simpl; auto|reflexivity].
  - intros state _. reflexivity.
  - split; [exact Hres|split; [|exact Hcount]].
    exists room'. auto.
Defined.

Lemma closed_room_is_rejected_witness :
  @result_of usersOfTestRoom roomsSaving deleteCommand (worldWith closedRoom) =
    Returned (Failure (BadRequestError [
      {| PropertyName := "room"; ErrorMessage := "Cannot delete user from a closed room" |}])) /\
  heap (@world_after usersOfTestRoom roomsSaving deleteCommand (worldWith closedRoom))
    !! roomRef = Some closedRoom /\
  count_UpdateAsync
    (@calls_of usersOfTestRoom roomsSaving deleteCommand (worldWith closedRoom)) = 0.
Proof.
  destruct (@closed_room_is_rejected usersOfTestRoom roomsSaving deleteCommand
              (worldWith closedRoom) adminUser userToDelete roomRef closedRoom
              638000000000000000%Z steps_pass_in_test_room eq_refl eq_refl eq_refl)
    as (Hres & _ & Hroom & _ & Hcount).
  auto.
Defined.

Lemma non_admin_is_forbidden_witness :
  @result_of usersCallerNotAdmin roomsSaving deleteCommand (worldWith openRoom) =
    Returned (Failure (ForbiddenError [
      {| PropertyName := "userCode";
         ErrorMessage := "Only admin can delete users from the room" |}])) /\
  @calls_of usersCallerNotAdmin roomsSaving deleteCommand (worldWith openRoom) =
    [CallGetByCodeAsync "admin-code" true false].
Proof.
  destruct (@non_admin_is_forbidden usersCallerNotAdmin roomsSaving deleteCommand
              (worldWith openRoom) nonAdminUser eq_refl eq_refl)
    as (Hres & Hcalls & _).
  auto.
Defined.

Lemma self_deletion_is_rejected_witness :
  @result_of usersTargetIsAdmin roomsSaving deleteSelfCommand (worldWith openRoom) =
    Returned (Failure (BadRequestError [
      {| PropertyName := "id"; ErrorMessage := "Admin cannot delete himself" |}])) /\
  @calls_of usersTargetIsAdmin roomsSaving deleteSelfCommand (worldWith openRoom) =
    [CallGetByCodeAsync "admin-code" true false; CallGetByIdAsync 1 false false].
Proof.
  destruct (@self_deletion_is_rejected usersTargetIsAdmin roomsSaving deleteSelfCommand
              (worldWith openRoom) adminUser adminUser)
    as (Hres & Hcalls & _).
  - reflexivity.
  - unfold TargetLookupMade. simpl. auto.
  - reflexivity.
  - intros _. reflexivity.
  - reflexivity.
  - auto.
Defined.

Lemma different_rooms_is_forbidden_witness :
  @result_of usersTargetElsewhere roomsSaving deleteCommand (worldWith openRoom) =
    Returned (Failure (ForbiddenError [
      {| PropertyName := "id";
         ErrorMessage := "User with userCode and user with id belong to different rooms" |}])) /\
  @calls_of usersTargetElsewhere roomsSaving deleteCommand (worldWith openRoom) =
    [CallGetByCodeAsync "admin-code" true false; CallGetByIdAsync 2 false false].
Proof.
  destruct (@different_rooms_is_forbidden usersTargetElsewhere roomsSaving deleteCommand
              (worldWith openRoom) adminUser userElsewhere)
    as (Hres & Hcalls & _).
  - reflexivity.
  - unfold TargetLookupMade. simpl. auto.
  - reflexivity.
  - discriminate.
  - auto.
Defined.

Lemma unresolved_admin_is_not_found_witness :
  @result_of usersCallerUnknown roomsSaving deleteCommand (worldWith openRoom) =
    Returned (Failure (NotFoundError [
      {| PropertyName := "userCode"; ErrorMessage := "User with such code not found" |}])) /\
  @calls_of usersCallerUnknown roomsSaving deleteCommand (worldWith openRoom) =
    [CallGetByCodeAsync "admin-code" true false].
Proof.
  destruct (@unresolved_admin_is_not_found usersCallerUnknown roomsSaving deleteCommand
              (worldWith openRoom) infrastructureError eq_refl)
    as (Hres & Hcalls & _).
  auto.
Defined.

Lemma room_lookup_failure_passes_through_witness :
  @result_of usersOfTestRoom roomsUnavailable deleteCommand (worldWith openRoom) =
    Returned (Failure roomNotFound) /\
  heap (@world_after usersOfTestRoom roomsUnavailable deleteCommand (worldWith openRoom)) =
    heap (worldWith openRoom).
Proof.
  destruct (@room_lookup_failure_passes_through usersOfTestRoom roomsUnavailable deleteCommand
              (worldWith openRoom) adminUser userToDelete roomNotFound
              steps_pass_in_test_room eq_refl)
    as (Hres & _ & Hheap).
  auto.
Defined.

Lemma update_answer_is_mapped_witness :
  @result_of usersOfTestRoom roomsFailingToSave deleteCommand (worldWith openRoom) =
    Returned (Failure (BadRequestError [
      {| PropertyName := ""; ErrorMessage := "Database update failed" |}])) /\
  @result_of usersOfTestRoom roomsSaving deleteCommand (worldWith openRoom) =
    Returned (Success tt).
Proof.
  split.
  - apply (@update_answer_is_mapped usersOfTestRoom roomsFailingToSave deleteCommand
             (worldWith openRoom) roomRef roomWithoutTarget).
    + vm_compute. do 3 right. left. reflexivity.
    + reflexivity.
  - apply (@update_answer_is_mapped usersOfTestRoom roomsSaving deleteCommand
             (worldWith openRoom) roomRef roomWithoutTarget).
    + vm_compute. do 3 right. left. reflexivity.
    + reflexivity.
Defined.

Lemma absent_target_is_silent_noop_witness :
  heap (@world_after usersOfTestRoom roomsFailingToSave deleteCommand
          (worldWith roomWithoutTarget)) !! roomRef = Some roomWithoutTarget /\
  @calls_of usersOfTestRoom roomsFailingToSave deleteCommand (worldWith roomWithoutTarget) =
    [CallGetByCodeAsync "admin-code" true false;
     CallGetByIdAsync 2 false false;
     CallGetByUserCodeAsync "admin-code";
     CallUpdateAsync roomRef roomWithoutTarget] /\
  @result_of usersOfTestRoom roomsFailingToSave deleteCommand (worldWith roomWithoutTarget) =
    Returned (Failure (BadRequestError [
      {| PropertyName := ""; ErrorMessage := "Database update failed" |}])).
Proof.
  destruct (@absent_target_is_silent_noop usersOfTestRoom roomsFailingToSave deleteCommand
              (worldWith roomWithoutTarget) adminUser userToDelete roomRef roomWithoutTarget
              steps_pass_in_test_room eq_refl eq_refl eq_refl)
    as (_ & _ & Hroom & Hcalls & Hfail & _).
  - intros u [<-|[]]. discriminate.
  - split; [exact Hroom|split; [exact Hcalls|]].
    apply Hfail. reflexivity.
Defined.

Lemma lookup_errors_are_discarded_witness :
  @result_of usersCallerUnknown roomsSaving deleteCommand (worldWith openRoom) =
    Returned (Failure (NotFoundError [
      {| PropertyName := "userCode"; ErrorMessage := "User with such code not found" |}])) /\
  @result_of usersTargetUnknown roomsSaving deleteCommand (worldWith openRoom) =
    Returned (Failure (NotFoundError [
      {| PropertyName := "id"; ErrorMessage := "User with such id not found" |}])).
Proof.
  split.
  - apply (@lookup_errors_are_discarded usersCallerUnknown roomsSaving deleteCommand
             (worldWith openRoom) infrastructureError).
    reflexivity.
  - apply (@lookup_errors_are_discarded usersTargetUnknown roomsSaving deleteCommand
             (worldWith openRoom) infrastructureError).
    + unfold TargetLookupMade. simpl. auto.
    + reflexivity.
Defined.

(** ** Beyond the exits: what an invocation can and cannot do to the heap *)

Section Footprint.

Context {userRepository : IUserReadOnlyRepository}
        {roomRepository : IRoomRepository}.

Implicit Types (request : DeleteUserCommand) (w : World) (r : RoomRef).

Lemma Remove_keeps (item u : User) (l : list User) :
  In u l -> u <> item -> In u (Remove item l).
Proof.
  induction l as [|x rest IH]; simpl; [tauto|].
  intros [->|Hin] Hne.
  - destruct (decide (u = item)); [contradiction|]. now left.
  - destruct (decide (x = item)); [assumption|]. right. auto.
Qed.

Lemma Remove_incl (item u : User) (l : list User) :
  In u (Remove item l) -> In u l.
Proof.
  induction l as [|x rest IH]; simpl; [tauto|].
  destruct (decide (x = item)); simpl; intuition.
Qed.

Lemma Remove_sublist (item : User) (l : list User) :
  sublist (Remove item l) l.
Proof.
  induction l as [|x rest IH]; simpl; [constructor|].
  destruct (decide (x = item)).
  - now apply sublist_cons.
  - now apply sublist_skip.
Qed.

Lemma Remove_unique_ids (item : User) (l : list User) :
  NoDup (map Id l) -> NoDup (map Id (Remove item l)).
Proof.
  induction l as [|x rest IH]; simpl; [auto|].
  intros Hnd. apply NoDup_cons in Hnd as [Hx Hrest].
  destruct (decide (x = item)); [assumption|].
  simpl. apply NoDup_cons. split; [|auto].
  intros Hin. apply Hx.
  apply list_elem_of_In in Hin. apply list_elem_of_In.
  apply in_map_iff in Hin as (u & Hu & Hin).
  apply in_map_iff. exists u. split; [assumption|].
  eapply Remove_incl, Hin.
Qed.

(** The one way an invocation changes the heap: the room behind the
    reference the repository answered with loses the user found under the
    requested id.  Every other exit hands the heap back as it was. *)
Lemma heap_after_cases request w :
  heap (world_after request w) = heap w \/
  exists admin target r room found,
    StepsOneToFivePass request admin target /\
    GetByUserCodeAsync (UserCode request) = Success r /\
    heap w !! r = Some room /\
    ClosedOn room = None /\
    FirstOrDefault (HasId (UserId request)) (Users room) = Some found /\
    heap (world_after request w) =
      <[r := WithUsers room (Remove found (Users room))]> (heap w) /\
    calls_of request w =
      [CallGetByCodeAsync (UserCode request) true false;
       CallGetByIdAsync (UserId request) false false;
       CallGetByUserCodeAsync (UserCode request);
       CallUpdateAsync r (WithUsers room (Remove found (Users room)))] /\
    result_of request w =
      Returned (persisted (UpdateAsync r (WithUsers room (Remove found (Users room))))).
Proof.
  destruct (exit_cases request w).
  - left. erewrite world_after_run by (eapply run_admin_unresolved; eauto). reflexivity.
  - left. erewrite world_after_run by (eapply run_not_admin; eauto). reflexivity.
  - left. erewrite world_after_run by (eapply run_target_unresolved; eauto). reflexivity.
  - left. erewrite world_after_run by (eapply run_different_rooms; eauto). reflexivity.
  - left. erewrite world_after_run by (eapply run_self_deletion; eauto). reflexivity.
  - left. erewrite world_after_run by (eapply run_room_unresolved; eauto). reflexivity.
  - left. erewrite world_after_run by (eapply run_room_missing; eauto). reflexivity.
  - left. erewrite world_after_run by (eapply run_room_closed; eauto). reflexivity.
  - right. exists admin, target, r, room, found.
    pose proof (run_removed _ w _ _ _ _ _ Hpass Hroom Hheap Hopen Hfind) as Hrun.
    simpl in Hrun.
    do 5 (split; [assumption|]). split; [|split].
    + now rewrite (world_after_run _ _ _ _ Hrun).
    + eapply calls_after_update; [|eapply world_after_run, Hrun]. reflexivity.
    + eapply result_of_run, Hrun.
  - left. erewrite world_after_run by (eapply run_nothing_to_remove; eauto). reflexivity.
Qed.

(** What became of one cell of the heap. *)
Lemma cell_after request w (r' : RoomRef) (room : Room) :
  heap w !! r' = Some room ->
  heap (world_after request w) !! r' = Some room \/
  exists admin target found,
    StepsOneToFivePass request admin target /\
    GetByUserCodeAsync (UserCode request) = Success r' /\
    ClosedOn room = None /\
    FirstOrDefault (HasId (UserId request)) (Users room) = Some found /\
    heap (world_after request w) !! r' = Some (WithUsers room (Remove found (Users room))).
Proof.
  intros Hcell.
  destruct (heap_after_cases request w)
    as [E|(admin & target & r & room0 & found & Hpass & Hroom & Hheap & Hopen & Hfind & E & _)].
  - left. now rewrite E.
  - rewrite E. destruct (decide (r = r')) as [->|Hne].
    + right. rewrite Hcell in Hheap. injection Hheap as <-.
      exists admin, target, found. rewrite lookup_insert_eq. auto.
    + left. now rewrite lookup_insert_ne.
Qed.

(** X1.  The caller is the admin and the lookup by id fails: the handler
    answers [NotFound] on field "id" with "User with such id not found";
    the trace stops at the two user lookups, so the room is neither loaded
    nor updated, and the heap is as before. *)
Theorem unresolved_target_is_not_found request w admin error :
  GetByCodeAsync (UserCode request) true false = Success admin ->
  IsAdmin admin = true ->
  GetByIdAsync (UserId request) false false = Failure error ->
  result_of request w =
    Returned (Failure (NotFoundError [
      {| PropertyName := "id"; ErrorMessage := "User with such id not found" |}])) /\
  calls_of request w =
    [CallGetByCodeAsync (UserCode request) true false;
     CallGetByIdAsync (UserId request) false false] /\
  heap (world_after request w) = heap w.
Proof.
  intros Hadmin Hflag Htarget.
  pose proof (run_target_unresolved _ w _ _ Hadmin Hflag Htarget) as Hrun.
  pose proof (world_after_run _ _ _ _ Hrun) as Hw.
  split; [exact (result_of_run _ _ _ _ Hrun)|split].
  - exact (calls_after_target_lookup _ _ Hw).
  - now rewrite Hw.
Qed.

(** X2.  Every invocation walks the same pipeline: its repository calls
    are a non-empty initial stretch of "admin by code (with room, without
    wishes), target by id (without either), room by user code,
    [UpdateAsync]".  There is never a second update, nothing follows an
    update, and the state [UpdateAsync] was handed is the state the room
    object is left in. *)
Theorem calls_follow_the_pipeline request w :
  (exists n, 1 <= n <= 3 /\
     calls_of request w =
       take n [CallGetByCodeAsync (UserCode request) true false;
               CallGetByIdAsync (UserId request) false false;
               CallGetByUserCodeAsync (UserCode request)]) \/
  (exists r state,
     calls_of request w =
       [CallGetByCodeAsync (UserCode request) true false;
        CallGetByIdAsync (UserId request) false false;
        CallGetByUserCodeAsync (UserCode request);
        CallUpdateAsync r state] /\
     heap (world_after request w) !! r = Some state).
Proof.
  destruct (exit_cases request w).
  - left. exists 1. split; [lia|].
    eapply calls_after_admin_lookup, world_after_run, run_admin_unresolved; eauto.
  - left. exists 1. split; [lia|].
    eapply calls_after_admin_lookup, world_after_run, run_not_admin; eauto.
  - left. exists 2. split; [lia|].
    eapply calls_after_target_lookup, world_after_run, run_target_unresolved; eauto.
  - left. exists 2. split; [lia|].
    eapply calls_after_target_lookup, world_after_run, run_different_rooms; eauto.
  - left. exists 2. split; [lia|].
    eapply calls_after_target_lookup, world_after_run, run_self_deletion; eauto.
  - left. exists 3. split; [lia|].
    eapply calls_after_room_lookup, world_after_run, run_room_unresolved; eauto.
  - left. exists 3. split; [lia|].
    eapply calls_after_room_lookup, world_after_run, run_room_missing; eauto.
  - left. exists 3. split; [lia|].
    eapply calls_after_room_lookup, world_after_run, run_room_closed; eauto.
  - right.
    pose proof (run_removed _ w _ _ _ _ _ Hpass Hroom Hheap Hopen Hfind) as Hrun.
    simpl in Hrun. pose proof (world_after_run _ _ _ _ Hrun) as Hw.
    eexists _, _. split.
    + eapply calls_after_update; [|exact Hw]. reflexivity.
    + rewrite Hw. simpl. apply lookup_insert_eq.
  - right.
    pose proof (run_nothing_to_remove _ w _ _ _ _ Hpass Hroom Hheap Hopen Hfind) as Hrun.
    pose proof (world_after_run _ _ _ _ Hrun) as Hw.
    eexists _, _. split.
    + eapply calls_after_update; [|exact Hw]. reflexivity.
    + rewrite Hw. exact Hheap.
Qed.

(** X3.  An invocation touches no room object but the one the room
    repository answered with for the caller's code: a reference whose
    cell differs afterwards is that answer. *)
Theorem only_the_loaded_room_changes request w (r' : RoomRef) :
  heap (world_after request w) !! r' <> heap w !! r' ->
  GetByUserCodeAsync (UserCode request) = Success r'.
Proof.
  intros Hdiff.
  destruct (heap_after_cases request w)
    as [E|(admin & target & r & room & found & _ & Hroom & _ & _ & _ & E & _)].
  - rewrite E in Hdiff. contradiction.
  - rewrite E in Hdiff. destruct (decide (r = r')) as [<-|Hne]; [exact Hroom|].
    rewrite lookup_insert_ne in Hdiff by assumption. contradiction.
Qed.

(** X4.  Whatever the invocation does, a room on the heap stays on the
    heap, keeps its [ClosedOn], gains no user, keeps its users in their
    order and loses at most one of them. *)
Theorem rooms_only_shrink_by_one request w (r' : RoomRef) (room : Room) :
  heap w !! r' = Some room ->
  exists room',
    heap (world_after request w) !! r' = Some room' /\
    ClosedOn room' = ClosedOn room /\
    sublist (Users room') (Users room) /\
    length (Users room) <= S (length (Users room')).
Proof.
  intros Hcell.
  destruct (cell_after request w r' room Hcell)
    as [E|(admin & target & found & _ & _ & _ & Hfind & E)].
  - exists room. repeat split; [assumption|reflexivity|lia].
  - eexists. split; [exact E|]. simpl. split; [reflexivity|]. split.
    + apply Remove_sublist.
    + apply FirstOrDefault_Some in Hfind as [Hin _].
      rewrite <- (Remove_length found (Users room) Hin). lia.
Qed.

(** X5.  Success is never handed out lightly: when the handler returns
    success, the caller resolved and is flagged admin, the target
    resolved as a different user of the same room, the room loaded and was
    open, and the one [UpdateAsync] the invocation issued succeeded. *)
Theorem success_means_admitted request w :
  result_of request w = Returned (Success tt) ->
  exists admin target r room state,
    StepsOneToFivePass request admin target /\
    GetByUserCodeAsync (UserCode request) = Success r /\
    heap w !! r = Some room /\
    ClosedOn room = None /\
    calls_of request w =
      [CallGetByCodeAsync (UserCode request) true false;
       CallGetByIdAsync (UserId request) false false;
       CallGetByUserCodeAsync (UserCode request);
       CallUpdateAsync r state] /\
    UpdateAsync r state = Success tt.
Proof.
  intros Hres.
  destruct (exit_cases request w).
  - erewrite result_of_run in Hres by (eapply run_admin_unresolved; eauto). discriminate.
  - erewrite result_of_run in Hres by (eapply run_not_admin; eauto). discriminate.
  - erewrite result_of_run in Hres by (eapply run_target_unresolved; eauto). discriminate.
  - erewrite result_of_run in Hres by (eapply run_different_rooms; eauto). discriminate.
  - erewrite result_of_run in Hres by (eapply run_self_deletion; eauto). discriminate.
  - erewrite result_of_run in Hres by (eapply run_room_unresolved; eauto). discriminate.
  - erewrite result_of_run in Hres by (eapply run_room_missing; eauto). discriminate.
  - erewrite result_of_run in Hres by (eapply run_room_closed; eauto). discriminate.
  - pose proof (run_removed _ w _ _ _ _ _ Hpass Hroom Hheap Hopen Hfind) as Hrun.
    simpl in Hrun. rewrite (result_of_run _ _ _ _ Hrun) in Hres.
    eexists admin, target, r, room, _. do 4 (split; [assumption|]). split.
    + eapply calls_after_update; [|eapply world_after_run, Hrun]. reflexivity.
    + destruct (UpdateAsync r _) as [[]|]; [reflexivity|discriminate].
  - pose proof (run_nothing_to_remove _ w _ _ _ _ Hpass Hroom Hheap Hopen Hfind) as Hrun.
    rewrite (result_of_run _ _ _ _ Hrun) in Hres.
    eexists admin, target, r, room, _. do 4 (split; [assumption|]). split.
    + eapply calls_after_update; [|eapply world_after_run, Hrun]. reflexivity.
    + destruct (UpdateAsync r _) as [[]|]; [reflexivity|discriminate].
Qed.

(** X6.  A closed room is out of reach: whatever the request and
    whatever the repositories answer, a room object whose [ClosedOn] is
    set is exactly the same after the invocation. *)
Theorem closed_rooms_are_never_touched request w (r' : RoomRef) (room : Room) (closedOn : Z) :
  heap w !! r' = Some room ->
  ClosedOn room = Some closedOn ->
  heap (world_after request w) !! r' = Some room.
Proof.
  intros Hcell Hclosed.
  destruct (cell_after request w r' room Hcell)
    as [E|(admin & target & found & _ & _ & Hopen & _)]; [exact E|].
  congruence.
Qed.

(** X7.  There is no rollback.  Steps 1 to 7 pass, the room holds a user
    under the target id and the update the invocation issues fails: the
    caller gets [BadRequest] on the empty field with the repository's
    message, and the room object has lost a member all the same. *)
Theorem failed_update_is_not_rolled_back request w admin target r room message :
  StepsOneToFivePass request admin target ->
  GetByUserCodeAsync (UserCode request) = Success r ->
  heap w !! r = Some room ->
  ClosedOn room = None ->
  (exists u, In u (Users room) /\ Id u = UserId request) ->
  (forall state,
      In (CallUpdateAsync r state) (calls_of request w) ->
      UpdateAsync r state = Failure message) ->
  result_of request w =
    Returned (Failure (BadRequestError [
      {| PropertyName := ""; ErrorMessage := message |}])) /\
  exists room',
    heap (world_after request w) !! r = Some room' /\
    S (length (Users room')) = length (Users room) /\
    In (CallUpdateAsync r room') (calls_of request w).
Proof.
  intros Hpass Hroom Hheap Hopen Hpresent Hupdate.
  destruct (FirstOrDefault_present _ _ Hpresent) as [found Hfind].
  pose proof (run_removed _ w _ _ _ _ _ Hpass Hroom Hheap Hopen Hfind) as Hrun.
  simpl in Hrun.
  set (room' := WithUsers room (Remove found (Users room))) in *.
  assert (Hcalls : In (CallUpdateAsync r room') (calls_of request w)).
  { rewrite (calls_after_update request w r room'
               (store r room' (after_room_lookup request w)) eq_refl
               (world_after_run _ _ _ _ Hrun)).
    simpl. auto. }
  split.
  - rewrite (result_of_run _ _ _ _ Hrun), (Hupdate _ Hcalls). reflexivity.
  - exists room'. split; [|split; [|exact Hcalls]].
    + rewrite (world_after_run _ _ _ _ Hrun). simpl. apply lookup_insert_eq.
    + simpl. apply Remove_length. eapply FirstOrDefault_Some, Hfind.
Qed.

(** X8.  The handler keeps the collection unique by id: a room whose
    users had pairwise different ids still has that after the
    invocation. *)
Theorem uniqueness_is_preserved request w (r' : RoomRef) (room : Room) :
  heap w !! r' = Some room ->
  UsersUniqueById room ->
  exists room',
    heap (world_after request w) !! r' = Some room' /\
    UsersUniqueById room'.
Proof.
  intros Hcell Hunique.
  destruct (cell_after request w r' room Hcell)
    as [E|(admin & target & found & _ & _ & _ & _ & E)].
  - eauto.
  - eexists. split; [exact E|]. unfold UsersUniqueById. simpl.
    now apply Remove_unique_ids.
Qed.

(** X9.  Nobody is removed by mistake: a user whose id is not the
    requested one is still in their room after the invocation, whatever
    the repositories answer. *)
Theorem others_are_never_removed request w (r' : RoomRef) (room : Room) (u : User) :
  heap w !! r' = Some room ->
  In u (Users room) ->
  Id u <> UserId request ->
  exists room',
    heap (world_after request w) !! r' = Some room' /\
    In u (Users room').
Proof.
  intros Hcell Hin Hother.
  destruct (cell_after request w r' room Hcell)
    as [E|(admin & target & found & _ & _ & _ & Hfind & E)].
  - eauto.
  - eexists. split; [exact E|]. simpl. apply Remove_keeps; [assumption|].
    apply FirstOrDefault_Some in Hfind as [_ Hid]. apply HasId_true in Hid.
    congruence.
Qed.

(** X10.  The admin cannot be removed.  Provided the lookup by id
    answers with a user carrying the id it was asked for, every user
    that has the caller's id is still in their room after the
    invocation. *)
Theorem admin_is_never_removed request w caller (r' : RoomRef) (room : Room) (u : User) :
  GetByCodeAsync (UserCode request) true false = Success caller ->
  (forall target,
      GetByIdAsync (UserId request) false false = Success target ->
      Id target = UserId request) ->
  heap w !! r' = Some room ->
  In u (Users room) ->
  Id u = Id caller ->
  exists room',
    heap (world_after request w) !! r' = Some room' /\
    In u (Users room').
Proof.
  intros Hcaller Hcontract Hcell Hin Hsame.
  destruct (cell_after request w r' room Hcell)
    as [E|(admin & target & found & Hpass & _ & _ & Hfind & E)].
  - eauto.
  - destruct Hpass as (Hadmin & _ & Htarget & _ & Hids).
    rewrite Hcaller in Hadmin. injection Hadmin as <-.
    apply Hcontract in Htarget.
    eexists. split; [exact E|]. simpl. apply Remove_keeps; [assumption|].
    apply FirstOrDefault_Some in Hfind as [_ Hid]. apply HasId_true in Hid.
    congruence.
Qed.

(** A pass through an open room whose users are unique by id, in one
    statement: the room loses exactly the users with the requested id. *)
Lemma open_room_run request w admin target r room :
  StepsOneToFivePass request admin target ->
  GetByUserCodeAsync (UserCode request) = Success r ->
  heap w !! r = Some room ->
  ClosedOn room = None ->
  UsersUniqueById room ->
  exists room',
    heap (world_after request w) = <[r := room']> (heap w) /\
    ClosedOn room' = None /\
    UsersUniqueById room' /\
    (forall u, In u (Users room') <-> In u (Users room) /\ Id u <> UserId request) /\
    calls_of request w =
      [CallGetByCodeAsync (UserCode request) true false;
       CallGetByIdAsync (UserId request) false false;
       CallGetByUserCodeAsync (UserCode request);
       CallUpdateAsync r room'] /\
    result_of request w = Returned (persisted (UpdateAsync r room')).
Proof.
  intros Hpass Hroom Hheap Hopen Hunique.
  destruct (FirstOrDefault (HasId (UserId request)) (Users room)) as [found|] eqn:Hfind.
  - pose proof (run_removed _ w _ _ _ _ _ Hpass Hroom Hheap Hopen Hfind) as Hrun.
    simpl in Hrun. pose proof (world_after_run _ _ _ _ Hrun) as Hw.
    eexists. split; [now rewrite Hw|]. split; [exact Hopen|]. split; [|split; [|split]].
    + unfold UsersUniqueById. simpl. now apply Remove_unique_ids.
    + intros u. simpl. split.
      * intros Hu. split; [eapply Remove_incl, Hu|].
        eapply Remove_found_unique; eauto.
      * intros [Hu Hother]. apply Remove_keeps; [assumption|].
        apply FirstOrDefault_Some in Hfind as [_ Hid]. apply HasId_true in Hid.
        congruence.
    + eapply calls_after_update; [|exact Hw]. reflexivity.
    + eapply result_of_run, Hrun.
  - pose proof (run_nothing_to_remove _ w _ _ _ _ Hpass Hroom Hheap Hopen Hfind) as Hrun.
    pose proof (world_after_run _ _ _ _ Hrun) as Hw.
    exists room. split; [|split; [exact Hopen|split; [exact Hunique|split; [|split]]]].
    + rewrite Hw. simpl. symmetry. now apply insert_id.
    + intros u. split; [|tauto]. intros Hu. split; [assumption|].
      apply HasId_false. eapply FirstOrDefault_None; eauto.
    + eapply calls_after_update; [|exact Hw]. reflexivity.
    + eapply result_of_run, Hrun.
Qed.

(** X11.  Two deletions in a row, on the world the first one left: with
    both requests passing steps 1 to 5, the same open room (unique by id)
    behind both and a repository that saves whatever it is given, both
    invocations return success; afterwards the room holds exactly its
    former users minus the two requested ids, and the two invocations
    issued two updates between them. *)
Theorem two_deletions_in_a_row request1 request2 w admin1 target1 admin2 target2 r room :
  StepsOneToFivePass request1 admin1 target1 ->
  StepsOneToFivePass request2 admin2 target2 ->
  GetByUserCodeAsync (UserCode request1) = Success r ->
  GetByUserCodeAsync (UserCode request2) = Success r ->
  heap w !! r = Some room ->
  ClosedOn room = None ->
  UsersUniqueById room ->
  (forall state, UpdateAsync r state = Success tt) ->
  result_of request1 w = Returned (Success tt) /\
  result_of request2 (world_after request1 w) = Returned (Success tt) /\
  (exists room'',
      heap (world_after request2 (world_after request1 w)) !! r = Some room'' /\
      forall u,
        In u (Users room'') <->
        In u (Users room) /\ Id u <> UserId request1 /\ Id u <> UserId request2) /\
  count_UpdateAsync
    (calls_of request1 w ++ calls_of request2 (world_after request1 w)) = 2.
Proof.
  intros Hpass1 Hpass2 Hroom1 Hroom2 Hheap Hopen Hunique Hsaves.
  destruct (open_room_run _ w _ _ _ _ Hpass1 Hroom1 Hheap Hopen Hunique)
    as (room' & Hw1 & Hopen' & Hunique' & Hmem1 & Hcalls1 & Hres1).
  assert (Hheap' : heap (world_after request1 w) !! r = Some room')
    by (rewrite Hw1; apply lookup_insert_eq).
  destruct (open_room_run _ _ _ _ _ _ Hpass2 Hroom2 Hheap' Hopen' Hunique')
    as (room'' & Hw2 & _ & _ & Hmem2 & Hcalls2 & Hres2).
  rewrite Hsaves in Hres1, Hres2.
  split; [exact Hres1|split; [exact Hres2|split]].
  - exists room''. split; [rewrite Hw2; apply lookup_insert_eq|].
    intros u. rewrite Hmem2, Hmem1. tauto.
  - rewrite Hcalls1, Hcalls2. reflexivity.
Qed.

(** X12.  Asking twice removes nobody else.  With the loaded room unique
    by id, running the same request again on the world the first
    invocation left changes no room object: whatever the first run
    removed, the second finds nothing more under that id. *)
Theorem repeating_a_deletion_changes_nothing request w :
  (forall r room,
      GetByUserCodeAsync (UserCode request) = Success r ->
      heap w !! r = Some room ->
      UsersUniqueById room) ->
  heap (world_after request (world_after request w)) = heap (world_after request w).
Proof.
  intros Hunique.
  destruct (heap_after_cases request (world_after request w))
    as [E|(admin & target & r & room2 & found2 & Hpass & Hroom & Hheap2 & Hopen2 & Hfind2 & _)];
    [exact E|exfalso].
  pose proof (FirstOrDefault_Some _ _ _ Hfind2) as [Hin2 Hid2].
  apply HasId_true in Hid2.
  destruct (heap w !! r) as [room|] eqn:Hheap.
  - destruct (cell_after request w r room Hheap)
      as [E1|(admin1 & target1 & found & _ & _ & Hopen & Hfind & E1)];
      rewrite E1 in Hheap2; injection Hheap2 as <-.
    + pose proof (run_removed _ w _ _ _ _ _ Hpass Hroom Hheap Hopen2 Hfind2) as Hrun.
      simpl in Hrun. rewrite (world_after_run _ _ _ _ Hrun) in E1. simpl in E1.
      rewrite lookup_insert_eq in E1. injection E1 as E1.
      pose proof (Remove_length found2 (Users room) Hin2) as Hlen.
      apply (f_equal Users) in E1. simpl in E1. rewrite E1 in Hlen. lia.
    + simpl in Hin2.
      exact (Remove_found_unique _ _ _ (Hunique _ _ Hroom Hheap) Hfind _ Hin2 Hid2).
  - destruct (heap_after_cases request w)
      as [E1|(admin1 & target1 & r1 & room1 & found & _ & Hroom1 & Hheap1 & _)].
    + rewrite E1 in Hheap2. congruence.
    + rewrite Hroom in Hroom1. injection Hroom1 as <-. congruence.
Qed.

(** X13.  Every failure the handler returns is of a known make: either
    it is the room repository's own lookup error, handed on, or it is one
    of the handler's three kinds carrying a single failure on one of the
    fields "userCode", "id", "room" or the empty name. *)
Theorem failures_are_classified request w (error : ValidationResult) :
  result_of request w = Returned (Failure error) ->
  GetByUserCodeAsync (UserCode request) = Failure error \/
  exists field message,
    Errors error = [{| PropertyName := field; ErrorMessage := message |}] /\
    ((Kind error = NotFound /\ (field = "userCode" \/ field = "id")) \/
     (Kind error = Forbidden /\ (field = "userCode" \/ field = "id")) \/
     (Kind error = BadRequest /\ (field = "id" \/ field = "room" \/ field = "")))%string.
Proof.
  intros Hres.
  destruct (exit_cases request w).
  - erewrite result_of_run in Hres by (eapply run_admin_unresolved; eauto).
    injection Hres as <-. right. eexists _, _. split; [reflexivity|]. auto.
  - erewrite result_of_run in Hres by (eapply run_not_admin; eauto).
    injection Hres as <-. right. eexists _, _. split; [reflexivity|]. auto.
  - erewrite result_of_run in Hres by (eapply run_target_unresolved; eauto).
    injection Hres as <-. right. eexists _, _. split; [reflexivity|]. auto.
  - erewrite result_of_run in Hres by (eapply run_different_rooms; eauto).
    injection Hres as <-. right. eexists _, _. split; [reflexivity|]. auto.
  - erewrite result_of_run in Hres by (eapply run_self_deletion; eauto).
    injection Hres as <-. right. eexists _, _. split; [reflexivity|]. auto.
  - erewrite result_of_run in Hres by (eapply run_room_unresolved; eauto).
    injection Hres as <-. left. exact Hroom.
  - erewrite result_of_run in Hres by (eapply run_room_missing; eauto). discriminate.
  - erewrite result_of_run in Hres by (eapply run_room_closed; eauto).
    injection Hres as <-. right. eexists _, _. split; [reflexivity|]. auto 6.
  - pose proof (run_removed _ w _ _ _ _ _ Hpass Hroom Hheap Hopen Hfind) as Hrun.
    simpl in Hrun. rewrite (result_of_run _ _ _ _ Hrun) in Hres.
    destruct (UpdateAsync r _) as [[]|message]; [discriminate|].
    injection Hres as <-. right. eexists _, _. split; [reflexivity|]. auto 6.
  - pose proof (run_nothing_to_remove _ w _ _ _ _ Hpass Hroom Hheap Hopen Hfind) as Hrun.
    rewrite (result_of_run _ _ _ _ Hrun) in Hres.
    destruct (UpdateAsync r _) as [[]|message]; [discriminate|].
    injection Hres as <-. right. eexists _, _. split; [reflexivity|]. auto 6.
Qed.

End Footprint.

(** ** The participants list: cards, buttons and clicks *)

Section ParticipantsListFacts.

Import ParticipantsList.

Variable generateParticipantLink : option string -> string.

Implicit Types (props : Props) (s : State) (events : list Event).

Lemma in_restParticipants props (user : Participant) :
  In user (restParticipants props) <->
  In user (participants props) /\ isAdmin user = false.
Proof.
  unfold restParticipants. rewrite filter_In, negb_true_iff. reflexivity.
Qed.

Lemma in_cards props (card : Card) :
  In card (cards props) ->
  (exists a, admin props = Some a /\ card = adminCard props a) \/
  (exists user, In user (restParticipants props) /\ card = userCard props user).
Proof.
  unfold cards. intros Hin. apply in_app_or in Hin as [Hin|Hin].
  - left. destruct (admin props) as [a|]; [|destruct Hin].
    destruct Hin as [<-|[]]. eauto.
  - right. apply in_map_iff in Hin as (user & <- & Hin). eauto.
Qed.

(** X14.  A card carries a delete handler only when the route's
    [userCode] equals that of the first participant flagged admin (as
    [===] has it: two undefined values are equal too), differs from that
    of the participant shown, the participant shown is not flagged admin
    and [onDeleteParticipant] was passed; the handler then is the click
    on that very participant. *)
Theorem delete_button_only_for_admin_on_others props (card : Card) (e : Event) :
  In card (cards props) ->
  onDeleteButtonClick card = Some e ->
  e = DeleteButtonClick (shown card) /\
  In (shown card) (participants props) /\
  isAdmin (shown card) = false /\
  onDeleteParticipant props = true /\
  route_userCode props = admin_userCode props /\
  route_userCode props <> userCode (shown card).
Proof.
  intros Hin Hbutton.
  destruct (in_cards _ _ Hin) as [(a & _ & ->)|(user & Hrest & ->)]; [discriminate|].
  apply in_restParticipants in Hrest as [Hpart Hflag].
  simpl in *. unfold viewerIsAdmin in Hbutton.
  destruct (bool_decide (route_userCode props = admin_userCode props)) eqn:Hviewer;
    [|discriminate].
  destruct (bool_decide (route_userCode props = userCode user)) eqn:Hself;
    [discriminate|].
  destruct (onDeleteParticipant props); [|discriminate].
  injection Hbutton as <-.
  apply bool_decide_eq_true in Hviewer. apply bool_decide_eq_false in Hself.
  auto 6.
Qed.

Lemma no_admin_rest (l : list Participant) :
  List.filter isAdmin l = [] ->
  FirstOrDefault isAdmin l = None /\
  List.filter (fun participant => negb (isAdmin participant)) l = l.
Proof.
  induction l as [|x rest IH]; simpl; [auto|].
  destruct (isAdmin x); [discriminate|]. simpl.
  intros H. destruct (IH H) as [-> ->]. auto.
Qed.

Lemma admin_first_permutation (l : list Participant) :
  length (List.filter isAdmin l) <= 1 ->
  Permutation
    (match FirstOrDefault isAdmin l with Some a => [a] | None => [] end ++
     List.filter (fun participant => negb (isAdmin participant)) l)
    l.
Proof.
  induction l as [|x rest IH]; simpl; [reflexivity|].
  destruct (isAdmin x) eqn:Hx; simpl; intros Hle.
  - assert (Hnone : List.filter isAdmin rest = []).
    { destruct (List.filter isAdmin rest); [reflexivity|simpl in Hle; lia]. }
    destruct (no_admin_rest _ Hnone) as [_ ->]. reflexivity.
  - rewrite <- Permutation_middle. constructor. auto.
Qed.

Lemma shown_cards props :
  List.map shown (cards props) =
    match admin props with Some a => [a] | None => [] end ++ restParticipants props.
Proof.
  unfold cards. rewrite List.map_app, List.map_map. simpl. rewrite List.map_id.
  destruct (admin props); reflexivity.
Qed.

(** X15.  With at most one participant flagged admin, the cards show
    every participant exactly once, and the admin first: the participants
    shown are a permutation of the list, and if the list has an admin,
    they are that admin followed by the others in the order of the
    list. *)
Theorem every_participant_has_one_card props :
  length (List.filter isAdmin (participants props)) <= 1 ->
  Permutation (List.map shown (cards props)) (participants props) /\
  (forall a,
      In a (participants props) ->
      isAdmin a = true ->
      List.map shown (cards props) = a :: restParticipants props).
Proof.
  intros Hle. rewrite shown_cards. split.
  - exact (admin_first_permutation _ Hle).
  - intros a Hin Hflag. unfold admin.
    destruct (FirstOrDefault isAdmin (participants props)) as [first|] eqn:Hfirst.
    + apply FirstOrDefault_Some in Hfirst as [Hin' Hflag'].
      assert (Ha : In a (List.filter isAdmin (participants props)))
        by (apply filter_In; auto).
      assert (Hf : In first (List.filter isAdmin (participants props)))
        by (apply filter_In; auto).
      destruct (List.filter isAdmin (participants props)) as [|x [|y rest]];
        simpl in *; [contradiction| |lia].
      destruct Ha as [<-|[]], Hf as [<-|[]]. reflexivity.
    + rewrite FirstOrDefault_None in Hfirst. apply Hfirst in Hin. congruence.
Qed.

(** X16.  Only the first participant flagged admin gets a card: every
    card shows either that one or somebody not flagged, so a further
    admin in the list is not on the page at all. *)
Theorem only_the_first_admin_is_shown props (card : Card) :
  In card (cards props) ->
  isAdmin (shown card) = true ->
  admin props = Some (shown card) /\
  onInfoButtonClick card = None /\
  onDeleteButtonClick card = None.
Proof.
  intros Hin Hflag.
  destruct (in_cards _ _ Hin) as [(a & Ha & ->)|(user & Hrest & ->)].
  - auto.
  - apply in_restParticipants in Hrest as [_ Hnot]. simpl in Hflag. congruence.
Qed.

Lemma run_cons props s (e : Event) events :
  run generateParticipantLink props s (e :: events) =
    (fst (run generateParticipantLink props
            (fst (step generateParticipantLink props s e)) events),
     snd (step generateParticipantLink props s e) ++
     snd (run generateParticipantLink props
            (fst (step generateParticipantLink props s e)) events)).
Proof.
  simpl. destruct (step generateParticipantLink props s e) as [s' called].
  simpl. destruct (run generateParticipantLink props s' events). reflexivity.
Qed.






Lemma clicked_calls_deletable props events :
  forall s,
    (forall pending, participantToDelete s = Some pending ->
       exists p, deletable props p /\ id p = delete_id pending) ->
    clickable_in_turn generateParticipantLink props s events ->
    forall i, In i (snd (run generateParticipantLink props s events)) ->
      exists p, deletable props p /\ id p = i.
Proof.
  induction events as [|e rest IH]; intros s Hpending Hclick i Hi.
  - destruct Hi.
  - rewrite run_cons in Hi. destruct Hclick as [He Hrest].
    apply in_app_or in Hi as [Hi|Hi].
    + destruct e; simpl in Hi; try contradiction.
      destruct (participantToDelete s) as [pending|] eqn:E; [|contradiction].
      destruct (onDeleteParticipant props); [|contradiction].
      destruct Hi as [<-|[]]. auto.
    + refine (IH _ _ Hrest i Hi).
      intros pending Hp. destruct e; simpl in Hp; try discriminate; auto.
      injection Hp as <-. simpl.
      destruct He as (card & Hcard & Hbutton).
      destruct (delete_button_only_for_admin_on_others _ _ _ Hcard Hbutton)
        as (Heq & Hrest').
      injection Heq as ->. exists (shown card). split; [exact Hrest'|reflexivity].
Qed.

(** X18.  Through the page, nobody can ask for the wrong deletion.  In
    any sequence of clicks that the renders allow, every id handed to
    [onDeleteParticipant] belongs to a participant of the list who is not
    flagged admin and whose [userCode] differs from the route's, and the
    route's [userCode] equals that of the first participant flagged
    admin. *)
Theorem page_only_deletes_others_as_admin props events :
  clickable_in_turn generateParticipantLink props initialState events ->
  forall i, In i (snd (run generateParticipantLink props initialState events)) ->
    exists p,
      In p (participants props) /\
      id p = i /\
      isAdmin p = false /\
      route_userCode props = admin_userCode props /\
      route_userCode props <> userCode p.
Proof.
  intros Hclick i Hi.
  destruct (clicked_calls_deletable props events initialState) with (i := i)
    as (p & (Hin & Hflag & _ & Hviewer & Hother) & Hid); try assumption.
  - intros pending Hp. discriminate Hp.
  - exists p. auto.
Qed.

(** X19.  The comparison with the admin's code also holds between two
    undefined values.  When the route carries no [userCode] and no admin
    code is at hand (nobody is flagged admin, or the admin has none),
    every participant that is not flagged admin and does have a
    [userCode] gets a card with the delete handler, provided
    [onDeleteParticipant] was passed. *)
Theorem delete_offered_when_codes_are_undefined props (user : Participant) (code : string) :
  route_userCode props = None ->
  admin_userCode props = None ->
  onDeleteParticipant props = true ->
  In user (participants props) ->
  isAdmin user = false ->
  userCode user = Some code ->
  In (userCard props user) (cards props) /\
  onDeleteButtonClick (userCard props user) = Some (DeleteButtonClick user).
Proof.
  intros Hroute Hadmin Hpassed Hin Hflag Hcode. split.
  - unfold cards. apply in_or_app. right. apply in_map.
    apply in_restParticipants. auto.
  - simpl. unfold viewerIsAdmin. rewrite Hroute, Hadmin, Hcode, Hpassed.
    reflexivity.
Qed.

End ParticipantsListFacts.

(** ** The further scenarios, replayed *)

Import Scenarios.

Lemma steps_pass_for_third :
  @StepsOneToFivePass usersById deleteThird adminUser nonAdminUser.
Proof. repeat split. discriminate. Defined.

Lemma steps_pass_for_second :
  @StepsOneToFivePass usersById deleteCommand adminUser userToDelete.
Proof. repeat split. discriminate. Defined.

Lemma room_of_three_unique : UsersUniqueById roomOfThree.
Proof.
  unfold UsersUniqueById. simpl. apply NoDup_ListNoDup.
  repeat constructor; simpl; intuition discriminate.
Defined.

Lemma unresolved_target_is_not_found_witness :
  @result_of usersTargetUnknown roomsSaving deleteCommand (worldWith openRoom) =
    Returned (Failure (NotFoundError [
      {| PropertyName := "id"; ErrorMessage := "User with such id not found" |}])) /\
  @calls_of usersTargetUnknown roomsSaving deleteCommand (worldWith openRoom) =
    [CallGetByCodeAsync "admin-code" true false; CallGetByIdAsync 2 false false].
Proof.
  destruct (@unresolved_target_is_not_found usersTargetUnknown roomsSaving deleteCommand
              (worldWith openRoom) adminUser infrastructureError eq_refl eq_refl eq_refl)
    as (Hres & Hcalls & _).
  auto.
Defined.

Lemma only_the_loaded_room_changes_witness :
  @GetByUserCodeAsync roomsSaving (UserCode deleteCommand) = Success roomRef.
Proof.
  apply (@only_the_loaded_room_changes usersOfTestRoom roomsSaving deleteCommand
           (worldWith openRoom) roomRef).
  vm_compute. discriminate.
Defined.

Lemma rooms_only_shrink_by_one_witness :
  exists room',
    heap (@world_after usersOfTestRoom roomsSaving deleteCommand (worldWith openRoom))
      !! roomRef = Some room' /\
    ClosedOn room' = None /\
    length (Users room') <= 2 <= S (length (Users room')).
Proof.
  destruct (@rooms_only_shrink_by_one usersOfTestRoom roomsSaving deleteCommand
              (worldWith openRoom) roomRef openRoom eq_refl)
    as (room' & Hheap & Hclosed & Hsub & Hlen).
  exists room'. split; [exact Hheap|split; [exact Hclosed|]].
  apply sublist_length in Hsub. simpl in *. lia.
Defined.

Lemma success_means_admitted_witness :
  exists admin target,
    @StepsOneToFivePass usersOfTestRoom deleteCommand admin target.
Proof.
  destruct (@success_means_admitted usersOfTestRoom roomsSaving deleteCommand
              (worldWith openRoom) eq_refl)
    as (admin & target & r & room & state & Hpass & _).
  eauto.
Defined.

Lemma closed_rooms_are_never_touched_witness :
  heap (@world_after usersOfTestRoom roomsSaving deleteCommand (worldWith closedRoom))
    !! roomRef = Some closedRoom.
Proof.
  apply (@closed_rooms_are_never_touched usersOfTestRoom roomsSaving deleteCommand
           (worldWith closedRoom) roomRef closedRoom 638000000000000000%Z);
    reflexivity.
Defined.

Lemma failed_update_is_not_rolled_back_witness :
  @result_of usersOfTestRoom roomsFailingToSave deleteCommand (worldWith openRoom) =
    Returned (Failure (BadRequestError [
      {| PropertyName := ""; ErrorMessage := "Database update failed" |}])) /\
  exists room',
    heap (@world_after usersOfTestRoom roomsFailingToSave deleteCommand (worldWith openRoom))
      !! roomRef = Some room' /\
    S (length (Users room')) = 2.
Proof.
  destruct (@failed_update_is_not_rolled_back usersOfTestRoom roomsFailingToSave deleteCommand
              (worldWith openRoom) adminUser userToDelete roomRef openRoom
              "Database update failed" steps_pass_in_test_room eq_refl eq_refl eq_refl)
    as (Hres & room' & Hheap & Hlen & _).
  - exists userToDelete. split; [simpl; auto|reflexivity].
  - intros state _. reflexivity.
  - split; [exact Hres|]. exists room'. auto.
Defined.

Lemma uniqueness_is_preserved_witness :
  exists room',
    heap (@world_after usersOfTestRoom roomsSaving deleteCommand (worldWith openRoom))
      !! roomRef = Some room' /\
    UsersUniqueById room'.
Proof.
  exact (@uniqueness_is_preserved usersOfTestRoom roomsSaving deleteCommand
           (worldWith openRoom) roomRef openRoom eq_refl test_room_unique).
Defined.

Lemma others_are_never_removed_witness :
  exists room',
    heap (@world_after usersOfTestRoom roomsSaving deleteCommand (worldWith openRoom))
      !! roomRef = Some room' /\
    In adminUser (Users room').
Proof.
  apply (@others_are_never_removed usersOfTestRoom roomsSaving deleteCommand
           (worldWith openRoom) roomRef openRoom adminUser).
  - reflexivity.
  - simpl. auto.
  - discriminate.
Defined.

Lemma admin_is_never_removed_witness :
  exists room',
    heap (@world_after usersById roomsSaving deleteCommand (worldWith roomOfThree))
      !! roomRef = Some room' /\
    In adminUser (Users room').
Proof.
  apply (@admin_is_never_removed usersById roomsSaving deleteCommand
           (worldWith roomOfThree) adminUser roomRef roomOfThree adminUser).
  - reflexivity.
  - intros target [= <-]. reflexivity.
  - reflexivity.
  - simpl. auto.
  - reflexivity.
Defined.

Lemma two_deletions_in_a_row_witness :
  @result_of usersById roomsSaving deleteCommand (worldWith roomOfThree) =
    Returned (Success tt) /\
  @result_of usersById roomsSaving deleteThird
    (@world_after usersById roomsSaving deleteCommand (worldWith roomOfThree)) =
    Returned (Success tt) /\
  exists room'',
    heap (@world_after usersById roomsSaving deleteThird
            (@world_after usersById roomsSaving deleteCommand (worldWith roomOfThree)))
      !! roomRef = Some room'' /\
    In adminUser (Users room'') /\
    ~ In userToDelete (Users room'') /\
    ~ In nonAdminUser (Users room'').
Proof.
  destruct (@two_deletions_in_a_row usersById roomsSaving deleteCommand deleteThird
              (worldWith roomOfThree) adminUser userToDelete adminUser nonAdminUser
              roomRef roomOfThree steps_pass_for_second steps_pass_for_third
              eq_refl eq_refl eq_refl eq_refl room_of_three_unique (fun _ => eq_refl))
    as (Hres1 & Hres2 & (room'' & Hheap & Hmem) & _).
  split; [exact Hres1|split; [exact Hres2|]].
  exists room''. split; [exact Hheap|]. split; [|split].
  - apply Hmem. simpl. split; [auto|]. split; discriminate.
  - intros Hin. apply Hmem in Hin as (_ & Hne & _). now apply Hne.
  - intros Hin. apply Hmem in Hin as (_ & _ & Hne). now apply Hne.
Defined.

Lemma repeating_a_deletion_changes_nothing_witness :
  heap (@world_after usersOfTestRoom roomsSaving deleteCommand
          (@world_after usersOfTestRoom roomsSaving deleteCommand (worldWith openRoom))) =
  heap (@world_after usersOfTestRoom roomsSaving deleteCommand (worldWith openRoom)).
Proof.
  apply (@repeating_a_deletion_changes_nothing usersOfTestRoom roomsSaving deleteCommand
           (worldWith openRoom)).
  intros r room [= <-] Hheap.
  assert (E : room = openRoom).
  { change (Some openRoom = Some room) in Hheap. now injection Hheap. }
  rewrite E. exact test_room_unique.
Defined.

Lemma failures_are_classified_witness :
  exists field message,
    [{| PropertyName := "room"; ErrorMessage := "Cannot delete user from a closed room" |}] =
      [{| PropertyName := field; ErrorMessage := message |}] /\
    (field = "id" \/ field = "room" \/ field = "")%string.
Proof.
  destruct (@failures_are_classified usersOfTestRoom roomsSaving deleteCommand
              (worldWith closedRoom)
              (BadRequestError [
                 {| PropertyName := "room";
                    ErrorMessage := "Cannot delete user from a closed room" |}])
              eq_refl)
    as [Hroom|(field & message & Herrors & Hkind)].
  - discriminate Hroom.
  - exists field, message. split; [exact Herrors|].
    destruct Hkind as [[Hk _]|[[Hk _]|[_ Hfield]]]; [discriminate Hk|discriminate Hk|exact Hfield].
Defined.

Lemma delete_button_only_for_admin_on_others_witness :
  ParticipantsList.onDeleteButtonClick (ParticipantsList.userCard adminPage guest) =
    Some (ParticipantsList.DeleteButtonClick guest) /\
  ParticipantsList.isAdmin guest = false /\
  ParticipantsList.route_userCode adminPage <> ParticipantsList.userCode guest.
Proof.
  destruct (@delete_button_only_for_admin_on_others adminPage
              (ParticipantsList.userCard adminPage guest)
              (ParticipantsList.DeleteButtonClick guest))
    as (_ & _ & Hflag & _ & _ & Hother).
  - vm_compute. auto.
  - reflexivity.
  - split; [reflexivity|]. split; [exact Hflag|exact Hother].
Defined.

Lemma every_participant_has_one_card_witness :
  Permutation
    (List.map ParticipantsList.shown (ParticipantsList.cards adminPage))
    [guest; host] /\
  List.map ParticipantsList.shown (ParticipantsList.cards adminPage) = [host; guest].
Proof.
  destruct (@every_participant_has_one_card adminPage) as [Hperm Hfirst].
  - simpl. lia.
  - split; [exact Hperm|].
    apply (Hfirst host); [simpl; auto|reflexivity].
Defined.

Lemma only_the_first_admin_is_shown_witness :
  ParticipantsList.admin adminPage = Some host /\
  ParticipantsList.onDeleteButtonClick (ParticipantsList.adminCard adminPage host) = None.
Proof.
  destruct (@only_the_first_admin_is_shown adminPage
              (ParticipantsList.adminCard adminPage host))
    as (Hadmin & _ & Hdelete).
  - vm_compute. auto.
  - reflexivity.
  - auto.
Defined.

Lemma page_only_deletes_others_as_admin_witness :
  exists p,
    In p [guest; host] /\
    ParticipantsList.id p = 2%Z /\
    ParticipantsList.isAdmin p = false.
Proof.
  destruct (@page_only_deletes_others_as_admin linkOf adminPage
              [ParticipantsList.DeleteButtonClick guest; ParticipantsList.DeleteConfirm])
    with (i := 2%Z)
    as (p & Hin & Hid & Hflag & _).
  - simpl. split; [|split; [discriminate|exact I]].
    exists (ParticipantsList.userCard adminPage guest). split; [vm_compute; auto|reflexivity].
  - vm_compute. auto.
  - exists p. auto.
Defined.

Lemma delete_offered_when_codes_are_undefined_witness :
  In (ParticipantsList.userCard strayPage guest) (ParticipantsList.cards strayPage) /\
  ParticipantsList.onDeleteButtonClick (ParticipantsList.userCard strayPage guest) =
    Some (ParticipantsList.DeleteButtonClick guest).
Proof.
  apply (@delete_offered_when_codes_are_undefined strayPage guest "guest-code");
    try reflexivity.
  simpl. auto.
Defined.

(** Two confirms on one render both find the participant pending, and
    [onDeleteParticipant] is called twice; with a render in between, the
    second finds nobody. *)
Lemma confirming_twice :
  snd (ParticipantsList.play linkOf adminPage ParticipantsList.initialMachine
         [ParticipantsList.Click (ParticipantsList.DeleteButtonClick guest);
          ParticipantsList.Rerender;
          ParticipantsList.Click ParticipantsList.DeleteConfirm;
          ParticipantsList.Click ParticipantsList.DeleteConfirm]) = [2%Z; 2%Z] /\
  snd (ParticipantsList.play linkOf adminPage ParticipantsList.initialMachine
         (ParticipantsList.paced
            [ParticipantsList.DeleteButtonClick guest;
             ParticipantsList.DeleteConfirm;
             ParticipantsList.DeleteConfirm])) = [2%Z].
Proof. split; reflexivity. Qed.
